(** * A database-to-Telegram relay: model of [app.py] and its properties

    [app.py] polls a SQL view for pending rows, posts each row as a formatted
    message to the Telegram Bot API and deletes the rows whose message was
    accepted.  This file embeds the class [DatabaseTelegramBot] method by
    method.  The collaborators of the program (the process environment,
    pyodbc, requests, logging, time) are modelled by an explicit [World]:
    what they answer is read from oracles held in the world, what the program
    asks of them is appended to a trace. *)

From Stdlib Require Import ZArith String Ascii List Bool Lia DecimalString.
From stdpp Require Import base option gmap strings list.

Local Open Scope Z_scope.
Local Open Scope string_scope.

(** ** Python built-ins used by the program *)

Module Py.

(** [str(n)] for an integer. *)
Definition str_Z (n : Z) : string := NilZero.string_of_int (Z.to_int n).

Definition str_nat (n : nat) : string := str_Z (Z.of_nat n).

(** [sep.join(parts)]. *)
Fixpoint join (sep : string) (parts : list string) : string :=
  match parts with
  | [] => ""
  | [p] => p
  | p :: rest => p +:+ sep +:+ join sep rest
  end.

Definition newline : string := String (ascii_of_nat 10) "".

(** The classes of the exceptions the program can meet, all of them below
    [Exception].  [HTTPError], [ConnectionError] and [Timeout] are the
    subclasses of [requests.exceptions.RequestException] that
    [raise_for_status], an unreachable endpoint and an expired timeout
    raise. *)
Inductive exn_class :=
| ValueError | IndexError | TypeError | OverflowError | OSError
| RequestException | HTTPError | ConnectionError | Timeout
| DatabaseError | OtherException.

(** An exception: its class and [str(e)]. *)
Record exn := Exn { exn_cls : exn_class; exn_text : string }.

(** [isinstance(e, requests.exceptions.RequestException)]. *)
Definition is_RequestException (e : exn) : bool :=
  match exn_cls e with
  | RequestException | HTTPError | ConnectionError | Timeout => true
  | _ => false
  end.

(** The result of running Python code: a value, or a raised exception. *)
Inductive outcome (A : Type) :=
| Returns (a : A)
| Raises (e : exn).
Arguments Returns {A} a.
Arguments Raises {A} e.

(** *** [repr] of a [str], for ASCII text

    Bytes from 128 on are copied: that is what Python does for printable
    characters outside ASCII. *)
Definition hex_digit (n : nat) : ascii :=
  ascii_of_nat (if Nat.ltb n 10 then 48 + n else 87 + n)%nat.

Definition repr_char (quote : ascii) (c : ascii) : string :=
  let n := nat_of_ascii c in
  if Ascii.eqb c "\" then "\\"
  else if Ascii.eqb c quote then String "\" (String c "")
  else if Nat.eqb n 10 then "\n"
  else if Nat.eqb n 13 then "\r"
  else if Nat.eqb n 9 then "\t"
  else if Nat.ltb n 32 || Nat.eqb n 127 then
    String "\" (String "x" (String (hex_digit (n / 16)) (String (hex_digit (n mod 16)) "")))
  else String c "".

Fixpoint contains_char (c : ascii) (s : string) : bool :=
  match s with
  | EmptyString => false
  | String d s' => Ascii.eqb c d || contains_char c s'
  end.

Fixpoint repr_body (quote : ascii) (s : string) : string :=
  match s with
  | EmptyString => ""
  | String c s' => repr_char quote c +:+ repr_body quote s'
  end.

Definition squote : ascii := ascii_of_nat 39.
Definition dquote : ascii := ascii_of_nat 34.

Definition repr_str (s : string) : string :=
  let quote :=
    if contains_char squote s && negb (contains_char dquote s) then dquote else squote in
  String quote (repr_body quote s) +:+ String quote "".

(** [str(l)] for a list of [str]. *)
Definition str_list_str (l : list string) : string :=
  "[" +:+ join ", " (map repr_str l) +:+ "]".

(** *** [int(s)] in base 10, as CPython 3.11 computes it

    The text of an environment variable reaches Python as the UTF-8 decoding
    of its bytes (a byte that does not decode becomes a lone surrogate).
    [int] first turns every character outside ASCII into an ASCII one: a
    character of the Unicode class of decimal digits into its digit, a
    Unicode white space into a blank, anything else into a character no
    number contains.  The ASCII text is then read: white space (codes 9 to
    13 and 32) around, one sign, digits with single underscores between
    them.  More than 4300 digits are refused, which is the interpreter's
    limit when nothing sets another.  The error for a bad literal shows at
    most 200 characters of the literal's [repr]. *)
Definition is_space (c : ascii) : bool :=
  let n := nat_of_ascii c in
  (Nat.leb 9 n && Nat.leb n 13) || Nat.eqb n 32.

Definition is_digit (c : ascii) : bool :=
  let n := nat_of_ascii c in Nat.leb 48 n && Nat.leb n 57.

Definition digit_val (c : ascii) : Z := Z.of_nat (nat_of_ascii c) - 48.

(** The code points of the digit zero of every decimal script (Unicode 14,
    the data of CPython 3.11); the nine code points after each are its
    digits 1 to 9. *)
Definition decimal_zeros : list N :=
  [
    48; 1632; 1776; 1984; 2406; 2534; 2662; 2790; 2918; 3046; 3174; 3302;
    3430; 3558; 3664; 3792; 3872; 4160; 4240; 6112; 6160; 6470; 6608; 6784;
    6800; 6992; 7088; 7232; 7248; 42528; 43216; 43264; 43472; 43504; 43600;
    44016; 65296; 66720; 68912; 69734; 69872; 69942; 70096; 70384; 70736;
    70864; 71248; 71360; 71472; 71904; 72016; 72784; 73040; 73120; 92768;
    92864; 93008; 120782; 120792; 120802; 120812; 120822; 123200; 123632;
    125264; 130032
  ]%N.

(** The white space outside ASCII. *)
Definition unicode_spaces : list N :=
  [
    133; 160; 5760; 8192; 8193; 8194; 8195; 8196; 8197; 8198; 8199; 8200;
    8201; 8202; 8232; 8233; 8239; 8287; 12288
  ]%N.

Definition decimal_digit (cp : N) : option N :=
  match List.find (fun zero => (zero <=? cp) && (cp <=? zero + 9))%N decimal_zeros with
  | Some zero => Some (cp - zero)%N
  | None => None
  end.

(** The ASCII character that stands for a code point from 127 on. *)
Definition transform_char (cp : N) : ascii :=
  if existsb (N.eqb cp) unicode_spaces then " "%char
  else match decimal_digit cp with
       | Some d => ascii_of_N (48 + d)
       | None => "?"%char
       end.

(** A continuation byte of UTF-8. *)
Definition is_cont (n : N) : bool := ((128 <=? n) && (n <=? 191))%N.

(** [to_ascii s]: the bytes of [s] decoded as UTF-8 and every character
    turned into its ASCII stand-in.  Characters below 127 stand for
    themselves; a byte that starts no well-formed character (too short, too
    long an encoding, a surrogate, beyond U+10FFFF) gives ["?"]. *)
Fixpoint to_ascii (s : string) : string :=
  match s with
  | EmptyString => EmptyString
  | String b0 s1 =>
    let n0 := N_of_ascii b0 in
    if (n0 <? 127)%N then String b0 (to_ascii s1)
    else if (n0 <? 194)%N then String "?" (to_ascii s1)
    else
      match s1 with
      | EmptyString => String "?" EmptyString
      | String b1 s2 =>
        let n1 := N_of_ascii b1 in
        if (n0 <? 224)%N then
          if is_cont n1
          then String (transform_char ((n0 - 192) * 64 + (n1 - 128))) (to_ascii s2)
          else String "?" (to_ascii s1)
        else
          match s2 with
          | EmptyString => String "?" (to_ascii s1)
          | String b2 s3 =>
            let n2 := N_of_ascii b2 in
            if (n0 <? 240)%N then
              if is_cont n1 && is_cont n2
                 && negb ((n0 =? 224) && (n1 <? 160))%N
                 && negb ((n0 =? 237) && (160 <=? n1))%N
              then String (transform_char
                             ((n0 - 224) * 4096 + (n1 - 128) * 64 + (n2 - 128)))
                     (to_ascii s3)
              else String "?" (to_ascii s1)
            else
              match s3 with
              | EmptyString => String "?" (to_ascii s1)
              | String b3 s4 =>
                let n3 := N_of_ascii b3 in
                if (n0 <? 245)%N && is_cont n1 && is_cont n2 && is_cont n3
                   && negb ((n0 =? 240) && (n1 <? 144))%N
                   && negb ((n0 =? 244) && (144 <=? n1))%N
                then String (transform_char
                               ((n0 - 240) * 262144 + (n1 - 128) * 4096
                                + (n2 - 128) * 64 + (n3 - 128)))
                       (to_ascii s4)
                else String "?" (to_ascii s1)
              end
          end
      end
  end.

Fixpoint lstrip (s : string) : string :=
  match s with
  | String c s' => if is_space c then lstrip s' else s
  | EmptyString => s
  end.

(** What is left after the digits may only be white space. *)
Fixpoint all_space (s : string) : bool :=
  match s with
  | EmptyString => true
  | String c s' => is_space c && all_space s'
  end.

Inductive int_parse :=
| IntValue (n : Z)
| IntInvalid
| IntTooLong (ndigits : N).

Definition max_str_digits : N := 4300.

(** Where the digits end: an underscore may not come last; then the number
    of digits is checked against the limit, before the rest of the text is
    looked at; there must be a digit; and only white space may follow. *)
Definition digits_end (acc : Z) (ndigits : N) (after_underscore : bool)
    (rest : string) : int_parse :=
  if after_underscore then IntInvalid
  else if (max_str_digits <? ndigits)%N then IntTooLong ndigits
  else if (ndigits =? 0)%N then IntInvalid
  else if all_space rest then IntValue acc
  else IntInvalid.

(** [digits acc ndigits after_underscore s]: reads digits and underscores;
    [ndigits] counts the digits read, [after_underscore] tells whether the
    previous character was an underscore. *)
Fixpoint digits (acc : Z) (ndigits : N) (after_underscore : bool) (s : string)
    : int_parse :=
  match s with
  | EmptyString => digits_end acc ndigits after_underscore s
  | String c s' =>
      if is_digit c then digits (10 * acc + digit_val c) (N.succ ndigits) false s'
      else if Ascii.eqb c "_" then
        if after_underscore then IntInvalid else digits acc ndigits true s'
      else digits_end acc ndigits after_underscore s
  end.

(** After the sign: an underscore may not come first. *)
Definition unsigned (s : string) : int_parse :=
  match s with
  | String "_" _ => IntInvalid
  | _ => digits 0 0 false s
  end.

Definition parse_int (s : string) : int_parse :=
  match lstrip (to_ascii s) with
  | String "-" s' =>
      match unsigned s' with
      | IntValue n => IntValue (- n)
      | r => r
      end
  | String "+" s' => unsigned s'
  | s' => unsigned s'
  end.

(** The first [n] characters of a text: a continuation byte stays with the
    byte it continues. *)
Fixpoint take_chars (n : nat) (s : string) : string :=
  match s with
  | EmptyString => EmptyString
  | String c s' =>
      if is_cont (N_of_ascii c) then String c (take_chars n s')
      else match n with
           | O => EmptyString
           | S n' => String c (take_chars n' s')
           end
  end.

Definition invalid_literal (s : string) : exn :=
  Exn ValueError
    ("invalid literal for int() with base 10: " +:+ take_chars 200 (repr_str s)).

Definition too_many_digits (ndigits : N) : exn :=
  Exn ValueError
    ("Exceeds the limit (4300 digits) for integer string conversion: value has "
     +:+ NilZero.string_of_int (Z.to_int (Z.of_N ndigits))
     +:+ " digits; use sys.set_int_max_str_digits() to increase the limit").

Definition int (s : string) : outcome Z :=
  match parse_int s with
  | IntValue n => Returns n
  | IntInvalid => Raises (invalid_literal s)
  | IntTooLong ndigits => Raises (too_many_digits ndigits)
  end.

(** A text of ASCII characters only. *)
Fixpoint is_ascii (s : string) : bool :=
  match s with
  | EmptyString => true
  | String c s' => Nat.ltb (nat_of_ascii c) 128 && is_ascii s'
  end.

End Py.

Import Py.

(** ** Configuration: [__init__] and [_validate_config]

    The process environment is a finite map from names to texts;
    [os.getenv(k)] is the lookup [env !! k]. *)

Record DatabaseTelegramBot := {
  db_server : option string;
  db_database : option string;
  db_username : option string;
  db_password : option string;
  db_view : string;
  db_table : string;
  telegram_token : option string;
  telegram_chat_id : option string;
  poll_interval : Z
}.

(** [os.getenv(key, default)]. *)
Definition getenv_or (env : gmap string string) (key dflt : string) : string :=
  default dflt (env !! key).

(** [not os.getenv(var)]: the variable is unset, or set to the empty text. *)
Definition unset_or_empty (o : option string) : bool :=
  match o with
  | None => true
  | Some s => String.eqb s ""
  end.

Definition required_vars : list string :=
  ["DB_SERVER"; "DB_DATABASE"; "DB_USERNAME"; "DB_PASSWORD";
   "TELEGRAM_BOT_TOKEN"; "TELEGRAM_CHAT_ID"].

Definition missing_vars (env : gmap string string) : list string :=
  List.filter (fun var => unset_or_empty (env !! var)) required_vars.

(** A required setting is missing when it is unset or empty. *)
Definition is_missing (env : gmap string string) (var : string) : Prop :=
  env !! var = None \/ env !! var = Some "".

Definition missing_error (missing : list string) : exn :=
  Exn ValueError ("Missing required environment variables: " +:+ str_list_str missing).

Definition _validate_config (env : gmap string string) : outcome unit :=
  match missing_vars env with
  | [] => Returns tt
  | missing => Raises (missing_error missing)
  end.

Definition __init__ (env : gmap string string) : outcome DatabaseTelegramBot :=
  match Py.int (getenv_or env "POLL_INTERVAL" "30") with
  | Raises e => Raises e
  | Returns interval =>
      let self :=
        {| db_server := env !! "DB_SERVER";
           db_database := env !! "DB_DATABASE";
           db_username := env !! "DB_USERNAME";
           db_password := env !! "DB_PASSWORD";
           db_view := getenv_or env "DB_VIEW" "your_view_name";
           db_table := getenv_or env "DB_TABLE" "your_table_name";
           telegram_token := env !! "TELEGRAM_BOT_TOKEN";
           telegram_chat_id := env !! "TELEGRAM_CHAT_ID";
           poll_interval := interval |} in
      match _validate_config env with
      | Raises e => Raises e
      | Returns _ => Returns self
      end
  end.

(** An environment with the six required settings, used in the examples. *)
Definition full_env : gmap string string :=
  <["DB_SERVER" := "sql.example"]>
  (<["DB_DATABASE" := "relay"]>
  (<["DB_USERNAME" := "bot"]>
  (<["DB_PASSWORD" := "secret"]>
  (<["TELEGRAM_BOT_TOKEN" := "123:abc"]>
  (<["TELEGRAM_CHAT_ID" := "42"]> ∅))))).

Definition example_bot : DatabaseTelegramBot :=
  {| db_server := Some "sql.example";
     db_database := Some "relay";
     db_username := Some "bot";
     db_password := Some "secret";
     db_view := "your_view_name";
     db_table := "your_table_name";
     telegram_token := Some "123:abc";
     telegram_chat_id := Some "42";
     poll_interval := 30 |}.


(** ** Python objects held in rows and passed as chat identifiers

    The program formats whatever objects pyodbc puts in a row ([int], [str],
    [datetime], ...) and accepts any object as [chat_id].  What it needs of
    them is collected in one interface: [str(x)], truthiness, equality, the
    text of a whole row, [None], and the injection of a [str]. *)

Class PyObject (V : Type) := {
  py_eq_dec :: EqDecision V;
  py_str : V -> string;
  py_bool : V -> bool;
  row_str : list V -> string;
  py_None : V;
  py_of_str : string -> V;
  py_bool_None : py_bool py_None = false;
  py_bool_of_str : forall s, py_bool (py_of_str s) = negb (String.eqb s "")
}.

(** The value of an attribute read with [os.getenv]: a [str] or [None]. *)
Definition py_of_opt `{PyObject V} (o : option string) : V :=
  match o with
  | Some s => py_of_str s
  | None => py_None
  end.

(** [f"{o}"] for such an attribute. *)
Definition str_opt (o : option string) : string := default "None" o.

(** ** The world around the program *)

Inductive level := DEBUG | INFO | WARNING | ERROR.

(** What one [requests.post] call meets: a response with its status line, or
    an exception. *)
Inductive post_outcome :=
| Responded (status : Z) (reason : string)
| PostRaises (e : exn).

Section World.

Context {V : Type} `{PyObject V}.

Definition row : Type := list V.

(** What the program does to its collaborators, in order. *)
Inductive event :=
| EvLog (lvl : level) (msg : string)
| EvConnect (connection_string : string)
| EvExecute (conn : nat) (query : string) (params : list V)
| EvCommit (conn : nat)
| EvClose (conn : nat)
| EvPost (url : string) (chat_id : V) (text : string) (parse_mode : string) (timeout : Z)
| EvSleep (seconds : Z).

(** - [table]: the committed pending rows; the view shows the rows of the
      table.
    - [conns]: the open connections, each with the image of the table it has
      changed and not yet committed, if any.
    - [db_fault n]: the exception the [n]-th call into pyodbc raises, if any;
      [db_calls] counts these calls.
    - [http n]: what the [n]-th POST meets; [posts] counts them.
    - [trace]: the events so far, oldest first. *)
Record World := {
  table : list row;
  conns : gmap nat (option (list row));
  next_conn : nat;
  db_fault : nat -> option exn;
  db_calls : nat;
  http : nat -> post_outcome;
  posts : nat;
  trace : list event
}.

Definition set_table (t : list row) (w : World) : World :=
  {| table := t; conns := conns w; next_conn := next_conn w;
     db_fault := db_fault w; db_calls := db_calls w;
     http := http w; posts := posts w; trace := trace w |}.

Definition set_conns (c : gmap nat (option (list row))) (w : World) : World :=
  {| table := table w; conns := c; next_conn := next_conn w;
     db_fault := db_fault w; db_calls := db_calls w;
     http := http w; posts := posts w; trace := trace w |}.

Definition set_next_conn (n : nat) (w : World) : World :=
  {| table := table w; conns := conns w; next_conn := n;
     db_fault := db_fault w; db_calls := db_calls w;
     http := http w; posts := posts w; trace := trace w |}.

Definition set_db_calls (n : nat) (w : World) : World :=
  {| table := table w; conns := conns w; next_conn := next_conn w;
     db_fault := db_fault w; db_calls := n;
     http := http w; posts := posts w; trace := trace w |}.

Definition set_posts (n : nat) (w : World) : World :=
  {| table := table w; conns := conns w; next_conn := next_conn w;
     db_fault := db_fault w; db_calls := db_calls w;
     http := http w; posts := n; trace := trace w |}.

Definition set_trace (t : list event) (w : World) : World :=
  {| table := table w; conns := conns w; next_conn := next_conn w;
     db_fault := db_fault w; db_calls := db_calls w;
     http := http w; posts := posts w; trace := t |}.

(** *** The monad of Python code: a state of the world, and exceptions *)

Definition M (A : Type) : Type := World -> outcome A * World.

#[global] Instance M_ret : MRet M := fun A a w => (Returns a, w).

#[global] Instance M_bind : MBind M := fun A B f m w =>
  match m w with
  | (Returns a, w') => f a w'
  | (Raises e, w') => (Raises e, w')
  end.

Definition raise {A : Type} (e : exn) : M A := fun w => (Raises e, w).

(** [try: body / except cls as e: handler e], where [catches] tells whether
    an exception is an instance of [cls]. *)
Definition try_except {A : Type} (catches : exn -> bool)
    (body : M A) (handler : exn -> M A) : M A := fun w =>
  match body w with
  | (Returns a, w') => (Returns a, w')
  | (Raises e, w') => if catches e then handler e w' else (Raises e, w')
  end.

(** [except Exception]: every exception of the model is one. *)
Definition Exception (e : exn) : bool := true.

Definition lift {A : Type} (o : outcome A) : M A := fun w => (o, w).

Definition emit (e : event) : M unit := fun w =>
  (Returns tt, set_trace (trace w ++ [e])%list w).

(** [logger.debug], [.info], [.warning], [.error]. *)
Definition log (lvl : level) (msg : string) : M unit := emit (EvLog lvl msg).

(** [time.sleep(seconds)]. *)
Definition sleep (seconds : Z) : M unit := emit (EvSleep seconds).

(** *** pyodbc *)

(** Every call into the driver first meets the fault oracle. *)
Definition driver_call : M unit := fun w =>
  let w' := set_db_calls (S (db_calls w)) w in
  match db_fault w (db_calls w) with
  | Some e => (Raises e, w')
  | None => (Returns tt, w')
  end.

(** A cursor: its connection, the rows of its last result, [rowcount]. *)
Record cursor := {
  cur_conn : nat;
  cur_rows : list row;
  cur_rowcount : Z
}.

(** [pyodbc.connect(connection_string)]. *)
Definition open_conn : M nat := fun w =>
  let c := next_conn w in
  (Returns c, set_next_conn (S c) (set_conns (<[c := None]> (conns w)) w)).

Definition pyodbc_connect (connection_string : string) : M nat :=
  emit (EvConnect connection_string);;
  driver_call;;
  open_conn.

(** [conn.cursor()]. *)
Definition conn_cursor (conn : nat) : M cursor :=
  driver_call;;
  mret {| cur_conn := conn; cur_rows := []; cur_rowcount := -1 |}.

(** The rows a connection sees: its own uncommitted image, or the table. *)
Definition visible (conn : nat) (w : World) : list row :=
  match conns w !! conn with
  | Some (Some image) => image
  | _ => table w
  end.

(** [cursor.execute("SELECT ... FROM view")]. *)
Definition select_rows (cur : cursor) : M cursor := fun w =>
  (Returns {| cur_conn := cur_conn cur;
              cur_rows := visible (cur_conn cur) w;
              cur_rowcount := -1 |}, w).

Definition cursor_execute_select (cur : cursor) (query : string) : M cursor :=
  emit (EvExecute (cur_conn cur) query []);;
  driver_call;;
  select_rows cur.

(** [cursor.fetchall()]. *)
Definition cursor_fetchall (cur : cursor) : M (list row) :=
  driver_call;;
  mret (cur_rows cur).

(** [id IN (?, ..., ?)] with the placeholders bound to [ids]: a row with no
    column matches nothing. *)
Definition id_in (ids : list V) (r : row) : bool :=
  match r with
  | [] => false
  | i :: _ => bool_decide (i ∈ ids)
  end.

(** [cursor.execute("DELETE FROM table WHERE id IN (...)", ids)]: the rows
    leave the connection's image of the table. *)
Definition delete_rows (cur : cursor) (ids : list V) : M cursor := fun w =>
  let before := visible (cur_conn cur) w in
  let after := List.filter (fun r => negb (id_in ids r)) before in
  (Returns {| cur_conn := cur_conn cur;
              cur_rows := [];
              cur_rowcount := Z.of_nat (length before) - Z.of_nat (length after) |},
   set_conns (<[cur_conn cur := Some after]> (conns w)) w).

Definition cursor_execute_delete (cur : cursor) (query : string) (ids : list V) : M cursor :=
  emit (EvExecute (cur_conn cur) query ids);;
  driver_call;;
  delete_rows cur ids.

(** [conn.commit()]: the connection's image becomes the table. *)
Definition commit_image (conn : nat) : M unit := fun w =>
  (Returns tt,
   set_conns (<[conn := None]> (conns w)) (set_table (visible conn w) w)).

Definition conn_commit (conn : nat) : M unit :=
  emit (EvCommit conn);;
  driver_call;;
  commit_image conn.

(** [cursor.close()]. *)
Definition cursor_close (cur : cursor) : M unit := driver_call.

(** [conn.close()]: what was not committed is lost. *)
Definition drop_conn (conn : nat) : M unit := fun w =>
  (Returns tt, set_conns (delete conn (conns w)) w).

Definition conn_close (conn : nat) : M unit :=
  emit (EvClose conn);;
  driver_call;;
  drop_conn conn.

(** *** requests *)

Record response := { status_code : Z; reason : string; resp_url : string }.

(** [requests.post(url, json={chat_id, text, parse_mode}, timeout=...)]. *)
Definition endpoint_answer (url : string) : M response := fun w =>
  let w' := set_posts (S (posts w)) w in
  match http w (posts w) with
  | Responded st rs => (Returns {| status_code := st; reason := rs; resp_url := url |}, w')
  | PostRaises e => (Raises e, w')
  end.

Definition requests_post (url : string) (chat_id : V) (text parse_mode : string)
    (timeout : Z) : M response :=
  emit (EvPost url chat_id text parse_mode timeout);;
  endpoint_answer url.

(** The statuses [raise_for_status] raises for. *)
Definition is_error_status (st : Z) : bool := ((400 <=? st) && (st <? 600))%Z.

(** [response.raise_for_status()]. *)
Definition raise_for_status (r : response) : M unit :=
  if ((400 <=? status_code r) && (status_code r <? 500))%Z then
    raise (Exn HTTPError (str_Z (status_code r) +:+ " Client Error: " +:+ reason r
                          +:+ " for url: " +:+ resp_url r))
  else if ((500 <=? status_code r) && (status_code r <? 600))%Z then
    raise (Exn HTTPError (str_Z (status_code r) +:+ " Server Error: " +:+ reason r
                          +:+ " for url: " +:+ resp_url r))
  else mret tt.

(** *** Function frames

    Leaving a function drops its frame.  In [fetch_pending_messages] and in
    [delete_processed_records] the connection is referred to by the locals
    [conn] and [cursor] only, so on every way out of the function CPython
    deallocates it, and pyodbc disconnects a connection that is deallocated
    open, rolling back what it had not committed.  [call body] is the body
    of such a function followed by this release: the connection opened
    during the call, if any, leaves the registry. *)
Definition drop_frame (entry : nat) (w : World) : World :=
  if (entry <? next_conn w)%nat then set_conns (delete entry (conns w)) w else w.

Definition call {A : Type} (body : M A) : M A := fun w =>
  match body w with
  | (o, w') => (o, drop_frame (next_conn w) w')
  end.

(** ** The methods of [DatabaseTelegramBot] *)

Definition get_db_connection (self : DatabaseTelegramBot) : M nat :=
  try_except Exception
    (let connection_string :=
       "DRIVER={ODBC Driver 18 for SQL Server};"
       +:+ "SERVER=" +:+ str_opt (db_server self) +:+ ";"
       +:+ "DATABASE=" +:+ str_opt (db_database self) +:+ ";"
       +:+ "UID=" +:+ str_opt (db_username self) +:+ ";"
       +:+ "PWD=" +:+ str_opt (db_password self) +:+ ";"
       +:+ "TrustServerCertificate=yes;" in
     conn ← pyodbc_connect connection_string;
     log INFO "Database connection established successfully";;
     mret conn)
    (fun e =>
       log ERROR ("Failed to connect to database: " +:+ exn_text e);;
       raise e).

Definition fetch_pending_messages (self : DatabaseTelegramBot) : M (list row) :=
  call
   (try_except Exception
     (conn ← get_db_connection self;
      cursor ← conn_cursor conn;
      let query :=
        "SELECT id, message_text, recipient, created_at FROM " +:+ db_view self in
      cursor ← cursor_execute_select cursor query;
      records ← cursor_fetchall cursor;
      cursor_close cursor;;
      conn_close conn;;
      log INFO ("Fetched " +:+ str_nat (length records) +:+ " pending messages");;
      mret records)
     (fun e =>
        log ERROR ("Error fetching messages: " +:+ exn_text e);;
        mret [])).

Definition send_telegram_message (self : DatabaseTelegramBot)
    (message_text : string) (chat_id : V) : M bool :=
  try_except is_RequestException
    (let chat_id :=
       if py_bool chat_id then chat_id else py_of_opt (telegram_chat_id self) in
     let url :=
       "https://api.telegram.org/bot" +:+ str_opt (telegram_token self)
       +:+ "/sendMessage" in
     response ← requests_post url chat_id message_text "HTML" 30;
     raise_for_status response;;
     log INFO ("Message sent successfully to chat " +:+ py_str chat_id);;
     mret true)
    (fun e =>
       log ERROR ("Failed to send Telegram message: " +:+ exn_text e);;
       mret false).

Definition delete_processed_records (self : DatabaseTelegramBot)
    (record_ids : list V) : M unit :=
  call
   (match record_ids with
    | [] => mret tt
    | _ =>
      try_except Exception
        (conn ← get_db_connection self;
         cursor ← conn_cursor conn;
         let placeholders := join "," (map (fun _ => "?") record_ids) in
         let delete_query :=
           "DELETE FROM " +:+ db_table self +:+ " WHERE id IN (" +:+ placeholders +:+ ")" in
         cursor ← cursor_execute_delete cursor delete_query record_ids;
         conn_commit conn;;
         let deleted_count := cur_rowcount cursor in
         cursor_close cursor;;
         conn_close conn;;
         log INFO ("Deleted " +:+ str_Z deleted_count +:+ " processed records"))
        (fun e =>
           log ERROR ("Error deleting processed records: " +:+ exn_text e))
    end).

(** [a, b, c, d = record[:4]]: fails unless the slice has four items. *)
Definition format_message (record : row) : outcome string :=
  if (4 <=? length record)%nat then
    match take 4 record with
    | [record_id; message_text; recipient; created_at] =>
        Returns (join newline
          ["<b>ðŸ“¨ New Message</b>";
           "<b>ID:</b> " +:+ py_str record_id;
           "<b>To:</b> " +:+ py_str recipient;
           "<b>Message:</b> " +:+ py_str message_text;
           "<b>Time:</b> " +:+ py_str created_at])
    | _ => Raises (Exn ValueError "not enough values to unpack (expected 4)")
    end
  else
    Returns (join newline ["<b>ðŸ“¨ Record:</b> " +:+ row_str record]).

(** [record[0]]. *)
Definition item0 (record : row) : M V :=
  match record with
  | x :: _ => mret x
  | [] => raise (Exn IndexError "tuple index out of range")
  end.

(** The body of the [for] loop of [process_messages].  The list
    [successful_ids] is changed only by [append], after which nothing in the
    [try] block raises: the handler sees the list the iteration started
    with. *)
Definition process_record (self : DatabaseTelegramBot) (record : row)
    (successful_ids : list V) : M (list V) :=
  try_except Exception
    (formatted_message ← lift (format_message record);
     sent ← send_telegram_message self formatted_message py_None;
     successful_ids ←
       (if sent : bool then
          record_id ← item0 record;
          mret (successful_ids ++ [record_id])%list
        else
          record_id ← item0 record;
          log WARNING ("Failed to send message for record ID: " +:+ py_str record_id);;
          mret successful_ids);
     sleep 1;;
     mret successful_ids)
    (fun e =>
       record_id ← item0 record;
       log ERROR ("Error processing record " +:+ py_str record_id +:+ ": " +:+ exn_text e);;
       mret successful_ids).

Fixpoint for_records (self : DatabaseTelegramBot) (records : list row)
    (successful_ids : list V) : M (list V) :=
  match records with
  | [] => mret successful_ids
  | record :: rest =>
      successful_ids ← process_record self record successful_ids;
      for_records self rest successful_ids
  end.

Definition process_messages (self : DatabaseTelegramBot) : M unit :=
  try_except Exception
    (records ← fetch_pending_messages self;
     match records with
     | [] => log DEBUG "No pending messages found"
     | _ =>
         successful_ids ← for_records self records [];
         match successful_ids with
         | [] => mret tt
         | _ =>
             delete_processed_records self successful_ids;;
             log INFO ("Processing cycle completed. Sent "
                       +:+ str_nat (length successful_ids) +:+ " messages")
         end
     end)
    (fun e => log ERROR ("Error in process_messages: " +:+ exn_text e)).

(** ** The scheduler loop: [run] and the script's entry point *)

(** [time.sleep(self.poll_interval)].  The length is first turned into
    nanoseconds, which overflows beyond 9223372036 seconds either way; then
    a negative length is refused; then the kernel is asked to pause, and it
    can refuse a length that takes its clock out of range.  [kernel t s] is
    what the kernel answers to a pause of [s] seconds asked after the events
    [t]: [None] when it pauses.  The pause of the relay cycle is [sleep 1],
    which meets none of these. *)
Definition max_sleep : Z := 9223372036.

(** The lengths [time.sleep] refuses by itself, and with what. *)
Definition refused_length (seconds : Z) : option exn :=
  if ((seconds <? - max_sleep) || (max_sleep <? seconds))%Z then
    Some (Exn OverflowError "timestamp too large to convert to C _PyTime_t")
  else if (seconds <? 0)%Z then
    Some (Exn ValueError "sleep length must be non-negative")
  else None.

Definition time_sleep (kernel : list event -> Z -> option exn) (seconds : Z) : M unit :=
  fun w =>
    match refused_length seconds with
    | Some e => raise e w
    | None =>
        match kernel (trace w) seconds with
        | Some e => raise e w
        | None => sleep seconds w
        end
    end.

(** [except KeyboardInterrupt]: the exceptions of the model are all below
    [Exception], and [KeyboardInterrupt] is not; a signal from the terminal
    is outside the model. *)
Definition KeyboardInterrupt (e : exn) : bool := false.

(** [try: body / except cls1: h1 / except cls2: h2]: the first clause that
    matches handles the exception; what a handler raises is not handled. *)
Definition try_except2 {A : Type} (body : M A)
    (catches1 : exn -> bool) (handler1 : exn -> M A)
    (catches2 : exn -> bool) (handler2 : exn -> M A) : M A := fun w =>
  match body w with
  | (Returns a, w') => (Returns a, w')
  | (Raises e, w') =>
      if catches1 e then handler1 e w'
      else if catches2 e then handler2 e w'
      else (Raises e, w')
  end.

(** One turn of [while True] in [run]; the result tells whether the turn
    ended with [break]. *)
Definition run_iteration (kernel : list event -> Z -> option exn)
    (self : DatabaseTelegramBot) : M bool :=
  try_except2
    (process_messages self;;
     time_sleep kernel (poll_interval self);;
     mret false)
    KeyboardInterrupt
    (fun e =>
       log INFO "Received shutdown signal";;
       mret true)
    Exception
    (fun e =>
       log ERROR ("Unexpected error in main loop: " +:+ exn_text e);;
       time_sleep kernel (poll_interval self);;
       mret false).

(** [while True] for at most [fuel] turns; [true] when the loop was left by
    [break], [false] when the turns are used up with the loop still going. *)
Fixpoint while_true (kernel : list event -> Z -> option exn) (fuel : nat)
    (self : DatabaseTelegramBot) : M bool :=
  match fuel with
  | O => mret false
  | S fuel' =>
      stop ← run_iteration kernel self;
      if stop : bool then mret true else while_true kernel fuel' self
  end.

Definition run (kernel : list event -> Z -> option exn)
    (self : DatabaseTelegramBot) (fuel : nat) : M bool :=
  log INFO "Starting Database-Telegram Bot";;
  log INFO ("Polling interval: " +:+ str_Z (poll_interval self) +:+ " seconds");;
  stopped ← while_true kernel fuel self;
  if stopped : bool then
    log INFO "Application stopped";;
    mret true
  else mret false.

(** [bot = DatabaseTelegramBot(); bot.run()] in the environment [env]. *)
Definition main (kernel : list event -> Z -> option exn)
    (env : gmap string string) (fuel : nat) : M bool :=
  bot ← lift (__init__ env);
  run kernel bot fuel.

(** ** Notions used in the statements *)

(** The destinations of the POSTs of a trace, oldest first. *)
Fixpoint posted_chat_ids (t : list event) : list V :=
  match t with
  | [] => []
  | EvPost _ chat_id _ _ _ :: t' => chat_id :: posted_chat_ids t'
  | _ :: t' => posted_chat_ids t'
  end.

(** Whether the endpoint's answer to a POST makes [send_telegram_message]
    return [True]. *)
Definition acknowledged (o : post_outcome) : bool :=
  match o with
  | Responded st _ => negb (is_error_status st)
  | PostRaises _ => false
  end.

(** The loop touches the endpoint only: the store, its connections and the
    oracles are as before. *)
Definition same_store (w w' : World) : Prop :=
  table w' = table w /\ conns w' = conns w /\ next_conn w' = next_conn w /\
  db_fault w' = db_fault w /\ db_calls w' = db_calls w /\ http w' = http w.

(** The identifiers of the records whose POST is acknowledged, in the order
    of the records; the POST of the first record is the [p]-th of the
    world. *)
Fixpoint succeeded_ids (answers : nat -> post_outcome) (p : nat)
    (records : list (list V)) : list V :=
  match records with
  | [] => []
  | record :: rest =>
      match record with
      | i :: _ => if acknowledged (answers p) then i :: succeeded_ids answers (S p) rest
                  else succeeded_ids answers (S p) rest
      | [] => succeeded_ids answers (S p) rest
      end
  end.

(** The connections on which the trace shows a call of [close()], oldest
    first. *)
Fixpoint closed_conns (t : list event) : list nat :=
  match t with
  | [] => []
  | EvClose c :: t' => c :: closed_conns t'
  | _ :: t' => closed_conns t'
  end.

(** How often the character [c] occurs in [s]. *)
Fixpoint count_char (c : ascii) (s : string) : nat :=
  match s with
  | EmptyString => O
  | String d s' => ((if Ascii.eqb c d then 1 else 0) + count_char c s')%nat
  end.

(** The first field of a row, if it has one. *)
Definition row_id (r : row) : option V := head r.

End World.

Arguments drop_frame : simpl never.
Arguments World V : clear implicits.
Arguments event V : clear implicits.
Arguments M V A : clear implicits.

(** ** A concrete kind of objects, for examples

    [None], integers, texts and time stamps, the last carried as the text
    [str] gives for them. *)

Inductive value :=
| VNone
| VInt (n : Z)
| VStr (s : string)
| VTime (iso : string).

#[global] Instance value_eq_dec : EqDecision value.
Proof. solve_decision. Defined.

Definition value_str (v : value) : string :=
  match v with
  | VNone => "None"
  | VInt n => str_Z n
  | VStr s => s
  | VTime iso => iso
  end.

Definition value_repr (v : value) : string :=
  match v with
  | VStr s => repr_str s
  | VTime iso => "datetime(" +:+ iso +:+ ")"
  | _ => value_str v
  end.

Definition value_bool (v : value) : bool :=
  match v with
  | VNone => false
  | VInt n => negb (n =? 0)%Z
  | VStr s => negb (String.eqb s "")
  | VTime _ => true
  end.

(** The text of a tuple. *)
Definition value_row_str (r : list value) : string :=
  match r with
  | [v] => "(" +:+ value_repr v +:+ ",)"
  | _ => "(" +:+ join ", " (map value_repr r) +:+ ")"
  end.

#[global, refine] Instance value_PyObject : PyObject value := {|
  py_str := value_str;
  py_bool := value_bool;
  row_str := value_row_str;
  py_None := VNone;
  py_of_str := VStr
|}.
Proof.
  - reflexivity.
  - reflexivity.
Defined.

(** A world at rest: no connection open, nothing counted, nothing traced. *)
Definition fresh_world {V : Type} (t : list (list V))
    (faults : nat -> option exn) (answers : nat -> post_outcome) : World V :=
  {| table := t; conns := ∅; next_conn := 0;
     db_fault := faults; db_calls := 0;
     http := answers; posts := 0; trace := [] |}.

Definition no_fault : nat -> option exn := fun _ => None.
Definition fault_at (k : nat) (e : exn) : nat -> option exn :=
  fun n => if Nat.eqb n k then Some e else None.
Definition always_ok : nat -> post_outcome := fun _ => Responded 200 "OK".

Definition two_rows : list (list value) :=
  [[VInt 1; VStr "hi"; VStr "a"; VTime "2024-01-01 10:00:00"];
   [VInt 2; VStr "bye"; VStr "b"; VTime "2024-01-01 10:05:00"]].

Definition three_fetched : list (list value) :=
  [[VInt 1; VStr "hi"; VStr "a"; VTime "2024-01-01 10:00:00"];
   [];
   [VInt 2; VStr "bye"; VStr "b"; VTime "2024-01-01 10:05:00"]].

(** A text of [n] digits, and a kernel that never refuses a pause. *)
Fixpoint ones (n : nat) : string :=
  match n with
  | O => EmptyString
  | S n' => String "1" (ones n')
  end.

Definition kernel_ok {V : Type} : list (event V) -> Z -> option exn :=
  fun _ _ => None.

(** Fault oracles and a bot used in further examples. *)
Definition query_fails : nat -> option exn :=
  fault_at 2 (Exn DatabaseError "Invalid object name 'your_view_name'").


Definition hasty_bot : DatabaseTelegramBot :=
  {| db_server := Some "sql.example"; db_database := Some "relay";
     db_username := Some "bot"; db_password := Some "secret";
     db_view := "your_view_name"; db_table := "your_table_name";
     telegram_token := Some "123:abc"; telegram_chat_id := Some "42";
     poll_interval := -5 |}.

(** * Properties *)

(** ** The built-ins on examples *)

Example int_30 : Py.int "30" = Returns 30.
Proof. reflexivity. Qed.

Example int_neg : Py.int " -1_5 " = Returns (-15).
Proof. reflexivity. Qed.

Example int_abc :
  Py.int "abc" = Raises (Exn ValueError "invalid literal for int() with base 10: 'abc'").
Proof. reflexivity. Qed.

Example int_empty : exists e, Py.int "" = Raises e.
Proof. eexists. reflexivity. Qed.

Example int_bad_underscore :
  Py.parse_int "1__0" = IntInvalid /\ Py.parse_int "_1" = IntInvalid /\
  Py.parse_int "1_" = IntInvalid.
Proof. repeat split; reflexivity. Qed.

(** A unit separator is no white space for [int]; Arabic-Indic and
    full-width digits are digits; a no-break space is white space. *)
Example int_unit_separator :
  exists e, Py.int (String "3" (String "0" (String (ascii_of_nat 31) ""))) = Raises e.
Proof. eexists. reflexivity. Qed.

Example int_other_digits :
  Py.int "٣٠" = Returns 30 /\ Py.int "３０" = Returns 30 /\ Py.int " ٣_٠ " = Returns 30.
Proof. repeat split; vm_compute; reflexivity. Qed.

(** 4300 digits are read, 4301 are not, whatever follows them. *)
Example int_digit_limit :
  (exists n, Py.int (ones 4300) = Returns n) /\
  Py.int (ones 4301) = Raises (Exn ValueError
    "Exceeds the limit (4300 digits) for integer string conversion: value has 4301 digits; use sys.set_int_max_str_digits() to increase the limit") /\
  Py.int (ones 4301 +:+ "x") = Py.int (ones 4301).
Proof.
  split; [|split].
  - destruct (Py.int (ones 4300)) as [n|e] eqn:E; [eauto|].
    vm_compute in E. discriminate.
  - vm_compute. reflexivity.
  - vm_compute. reflexivity.
Qed.

Example str_Z_examples : str_Z 0 = "0" /\ str_Z (-12) = "-12" /\ str_nat 2 = "2".
Proof. repeat split; reflexivity. Qed.

Example init_full_env : __init__ full_env = Returns example_bot.
Proof. vm_compute. reflexivity. Qed.

Example init_two_missing :
  __init__ (delete "DB_PASSWORD" (<["DB_SERVER" := ""]> full_env)) =
  Raises (Exn ValueError
    "Missing required environment variables: ['DB_SERVER', 'DB_PASSWORD']").
Proof. vm_compute. reflexivity. Qed.


(** ** Configuration *)

Lemma unset_or_empty_spec env var :
  unset_or_empty (env !! var) = true <-> is_missing env var.
Proof.
  unfold is_missing, unset_or_empty.
  destruct (env !! var) as [s|]; split; intros Hm.
  - right. apply String.eqb_eq in Hm. congruence.
  - destruct Hm as [Hm|Hm]; [discriminate|]. injection Hm as ->. reflexivity.
  - now left.
  - reflexivity.
Qed.

Lemma missing_vars_spec env var :
  In var (missing_vars env) <-> In var required_vars /\ is_missing env var.
Proof.
  unfold missing_vars. rewrite filter_In, unset_or_empty_spec. reflexivity.
Qed.

Lemma missing_vars_nil env :
  missing_vars env = [] <-> (forall var, In var required_vars -> ~ is_missing env var).
Proof.
  split.
  - intros Hnil var Hin Hm.
    assert (Hv : In var (missing_vars env)) by (apply missing_vars_spec; auto).
    rewrite Hnil in Hv. destruct Hv.
  - intros Hall. destruct (missing_vars env) as [|var l] eqn:E; [reflexivity|].
    assert (Hv : In var (missing_vars env)) by (rewrite E; now left).
    apply missing_vars_spec in Hv as [Hin Hm]. destruct (Hall var Hin Hm).
Qed.

(** What [__init__] does once the poll interval has been read. *)
Lemma init_after_interval env n :
  Py.int (getenv_or env "POLL_INTERVAL" "30") = Returns n ->
  __init__ env =
    match _validate_config env with
    | Raises e => Raises e
    | Returns _ =>
        Returns {| db_server := env !! "DB_SERVER";
                   db_database := env !! "DB_DATABASE";
                   db_username := env !! "DB_USERNAME";
                   db_password := env !! "DB_PASSWORD";
                   db_view := getenv_or env "DB_VIEW" "your_view_name";
                   db_table := getenv_or env "DB_TABLE" "your_table_name";
                   telegram_token := env !! "TELEGRAM_BOT_TOKEN";
                   telegram_chat_id := env !! "TELEGRAM_CHAT_ID";
                   poll_interval := n |}
    end.
Proof. intros Hint. unfold __init__. rewrite Hint. reflexivity. Qed.

Lemma init_bad_interval env e :
  Py.int (getenv_or env "POLL_INTERVAL" "30") = Raises e ->
  __init__ env = Raises e.
Proof. intros Hint. unfold __init__. rewrite Hint. reflexivity. Qed.

(** A bot built by [__init__] has a non-empty destination. *)
Lemma init_chat_id env self :
  __init__ env = Returns self ->
  exists s, telegram_chat_id self = Some s /\ s <> "".
Proof.
  unfold __init__. destruct (Py.int _) as [n|e]; [|discriminate].
  unfold _validate_config. destruct (missing_vars env) eqn:E; [|discriminate].
  intros [= <-]. simpl.
  assert (Hp : ~ is_missing env "TELEGRAM_CHAT_ID").
  { apply (proj1 (missing_vars_nil env) E). unfold required_vars. simpl. tauto. }
  unfold is_missing in Hp. destruct (env !! "TELEGRAM_CHAT_ID") as [s|].
  - exists s. split; [reflexivity|]. intros ->. tauto.
  - tauto.
Qed.

(** C5, as stated, fails: with the six required settings present and
    non-empty, an unreadable POLL_INTERVAL makes construction fail; and with a
    required setting missing as well, the error names no missing setting. *)
Lemma config_all_present_counterexample :
  let env := <["POLL_INTERVAL" := "abc"]> full_env in
  (forall var, In var required_vars -> ~ is_missing env var) /\
  __init__ env = Raises (invalid_literal "abc") /\
  is_missing (delete "DB_SERVER" env) "DB_SERVER" /\
  __init__ (delete "DB_SERVER" env) = Raises (invalid_literal "abc").
Proof.
  cbv zeta. split; [|split; [|split]].
  - apply missing_vars_nil. vm_compute. reflexivity.
  - vm_compute. reflexivity.
  - left. vm_compute. reflexivity.
  - vm_compute. reflexivity.
Qed.

(** C5, amended: when POLL_INTERVAL is unset or reads as an integer,
    construction succeeds if the six required settings are present and
    non-empty, and otherwise fails with the error whose text lists exactly
    the missing settings, in the order of [required_vars]. *)
Theorem config_construction (env : gmap string string) (n : Z) :
  Py.int (getenv_or env "POLL_INTERVAL" "30") = Returns n ->
  ((forall var, In var required_vars -> ~ is_missing env var) ->
     exists self, __init__ env = Returns self /\ poll_interval self = n) /\
  ((exists var, In var required_vars /\ is_missing env var) ->
     __init__ env =
       Raises (Exn ValueError
                 ("Missing required environment variables: "
                  +:+ str_list_str (missing_vars env))) /\
     (forall var, In var (missing_vars env) <->
                  In var required_vars /\ is_missing env var)).
Proof.
  intros Hint. rewrite (init_after_interval env n Hint). unfold _validate_config.
  split.
  - intros Hall. apply missing_vars_nil in Hall. rewrite Hall.
    eexists. split; reflexivity.
  - intros (var & Hin & Hm). split; [|apply missing_vars_spec].
    destruct (missing_vars env) as [|v l] eqn:E; [|reflexivity].
    destruct (proj1 (missing_vars_nil env) E var Hin Hm).
Qed.

Lemma config_construction_witness :
  (exists self, __init__ full_env = Returns self /\ poll_interval self = 30) /\
  __init__ (delete "DB_SERVER" (delete "TELEGRAM_CHAT_ID" full_env)) =
    Raises (Exn ValueError
      "Missing required environment variables: ['DB_SERVER', 'TELEGRAM_CHAT_ID']").
Proof.
  split.
  - apply (config_construction full_env 30); [reflexivity|].
    apply missing_vars_nil. vm_compute. reflexivity.
  - refine (proj1 (proj2 (config_construction
              (delete "DB_SERVER" (delete "TELEGRAM_CHAT_ID" full_env)) 30 _) _)).
    + reflexivity.
    + exists "DB_SERVER". split; [simpl; tauto|]. left. vm_compute. reflexivity.
Defined.

(** The text of [int]'s error has a capital P only if the literal has one:
    the prefix has none, and [repr] adds quotes, backslashes and lower-case
    escapes only. *)
Lemma contains_char_append c (a b : string) :
  contains_char c (a +:+ b) = contains_char c a || contains_char c b.
Proof.
  induction a as [|d a IH]; simpl; [reflexivity|].
  rewrite IH. apply orb_assoc.
Qed.

Lemma contains_char_take c n (s : string) :
  contains_char c s = false -> contains_char c (take_chars n s) = false.
Proof.
  revert n. induction s as [|d s IH]; intros n; simpl; [reflexivity|].
  intros Hs. apply orb_false_iff in Hs as [Hd Hs].
  destruct (is_cont (N_of_ascii d)); simpl.
  - rewrite Hd, (IH n Hs). reflexivity.
  - destruct n as [|n]; simpl; [reflexivity|].
    rewrite Hd, (IH n Hs). reflexivity.
Qed.

Lemma repr_char_no_P quote c :
  quote = squote \/ quote = dquote ->
  Ascii.eqb "P" c = false ->
  contains_char "P" (repr_char quote c) = false.
Proof.
  intros [-> | ->] Hc;
    destruct c as [[] [] [] [] [] [] [] []];
    solve [reflexivity | discriminate Hc].
Qed.

Lemma repr_body_no_P quote (s : string) :
  quote = squote \/ quote = dquote ->
  contains_char "P" s = false ->
  contains_char "P" (repr_body quote s) = false.
Proof.
  intros Hq. induction s as [|c s IH]; simpl; [reflexivity|].
  intros Hs. apply orb_false_iff in Hs as [Hc Hs].
  rewrite contains_char_append, (repr_char_no_P quote c Hq Hc), (IH Hs).
  reflexivity.
Qed.

Lemma invalid_literal_no_P (s : string) :
  contains_char "P" s = false ->
  contains_char "P" (exn_text (invalid_literal s)) = false.
Proof.
  intros Hs. unfold invalid_literal. cbn [exn_text].
  rewrite contains_char_append. apply orb_false_iff. split; [reflexivity|].
  apply contains_char_take. unfold repr_str.
  set (quote := if contains_char squote s && negb (contains_char dquote s)
                then dquote else squote).
  assert (Hq : quote = squote \/ quote = dquote).
  { unfold quote. destruct (_ && _); auto. }
  assert (HqP : Ascii.eqb "P" quote = false).
  { destruct Hq as [-> | ->]; reflexivity. }
  change (String quote (repr_body quote s) +:+ String quote "")
    with (String quote (repr_body quote s +:+ String quote "")).
  clearbody quote. cbn [contains_char].
  rewrite HqP, contains_char_append, (repr_body_no_P quote s Hq Hs).
  cbn [contains_char]. rewrite HqP. reflexivity.
Qed.

Lemma digits_text_no_P (d : Decimal.uint) :
  contains_char "P" (NilEmpty.string_of_uint d) = false.
Proof. induction d; simpl; auto. Qed.

Lemma too_many_digits_no_P (ndigits : N) :
  contains_char "P" (exn_text (too_many_digits ndigits)) = false.
Proof.
  unfold too_many_digits. cbn [exn_text].
  rewrite !contains_char_append.
  replace (contains_char "P" (NilZero.string_of_int (Z.to_int (Z.of_N ndigits))))
    with false; [reflexivity|].
  symmetry. destruct (Z.to_int (Z.of_N ndigits)) as [d|d]; simpl.
  - destruct d; try apply digits_text_no_P. reflexivity.
  - destruct d; try apply digits_text_no_P; reflexivity.
Qed.

(** The two errors of [int]: both are [ValueError]s, and neither has a
    capital P in its text unless the literal has one. *)
Lemma int_error (v : string) (e : exn) :
  Py.int v = Raises e ->
  exn_cls e = ValueError /\
  (contains_char "P" v = false -> contains_char "P" (exn_text e) = false).
Proof.
  unfold Py.int. destruct (parse_int v) as [n| |ndigits]; intros [= <-].
  - split; [reflexivity|apply invalid_literal_no_P].
  - split; [reflexivity|]. intros _. apply too_many_digits_no_P.
Qed.

(** C9: the poll interval is read with [int] and never checked for sign or
    range.  With POLL_INTERVAL set to a text that [int] reads as [n] and the
    required settings present, construction succeeds with interval [n]; "0"
    and "-5" are such texts, for 0 and -5.  With POLL_INTERVAL set to a text
    that [int] refuses, construction fails with the [ValueError] of [int],
    whatever the required settings are: validation has not run.  That error
    is computed from the text alone; unless the text itself has a capital P,
    the error text has none, so it does not contain the name POLL_INTERVAL.
    For a bad literal in ASCII the text is the one shown. *)
Theorem poll_interval_unchecked (env : gmap string string) (v : string) :
  env !! "POLL_INTERVAL" = Some v ->
  (forall n, Py.int v = Returns n ->
     (forall var, In var required_vars -> ~ is_missing env var) ->
     exists self, __init__ env = Returns self /\ poll_interval self = n) /\
  (forall e, Py.int v = Raises e ->
     __init__ env = Raises e /\ exn_cls e = ValueError /\
     (contains_char "P" v = false -> contains_char "P" (exn_text e) = false)) /\
  (is_ascii v = true -> parse_int v = IntInvalid ->
     __init__ env =
       Raises (Exn ValueError
                 ("invalid literal for int() with base 10: "
                  +:+ take_chars 200 (repr_str v)))) /\
  (Py.int "0" = Returns 0 /\ Py.int "-5" = Returns (-5)).
Proof.
  intros Hv.
  assert (Hget : getenv_or env "POLL_INTERVAL" "30" = v).
  { unfold getenv_or. rewrite Hv. reflexivity. }
  split; [|split; [|split]].
  - intros n Hn Hall.
    assert (Hint : Py.int (getenv_or env "POLL_INTERVAL" "30") = Returns n).
    { rewrite Hget. exact Hn. }
    rewrite (init_after_interval env n Hint). unfold _validate_config.
    apply missing_vars_nil in Hall. rewrite Hall. eexists. split; reflexivity.
  - intros e He. split.
    + apply init_bad_interval. rewrite Hget. exact He.
    + apply (int_error v e He).
  - intros _ Hn. apply init_bad_interval. rewrite Hget. unfold Py.int.
    rewrite Hn. reflexivity.
  - split; reflexivity.
Qed.

Lemma poll_interval_unchecked_witness :
  (exists self, __init__ (<["POLL_INTERVAL" := "-30"]> full_env) = Returns self
                /\ poll_interval self = -30) /\
  __init__ (<["POLL_INTERVAL" := "soon"]> (delete "DB_SERVER" full_env)) =
    Raises (Exn ValueError "invalid literal for int() with base 10: 'soon'").
Proof.
  split.
  - refine (proj1 (poll_interval_unchecked
              (<["POLL_INTERVAL" := "-30"]> full_env) "-30" _) (-30) _ _).
    + vm_compute. reflexivity.
    + reflexivity.
    + apply missing_vars_nil. vm_compute. reflexivity.
  - refine (proj1 (proj2 (proj2 (poll_interval_unchecked
              (<["POLL_INTERVAL" := "soon"]> (delete "DB_SERVER" full_env)) "soon" _)))
              _ _).
    + vm_compute. reflexivity.
    + reflexivity.
    + reflexivity.
Defined.

(** ** The formatter *)

Section Formatter.

Context {V : Type} `{PyObject V}.

(** C6: [format_message] is a function of the record alone (it takes no
    world and returns none, and used inside the cycle it leaves the world as
    it was); a record of four fields or more gives the header and then the
    identifier, the recipient, the message and the time stamp, each after its
    bold label, in that order; a shorter record gives the bold label
    "Record:" and the raw text of the record. *)
Theorem format_message_spec (record : list V) :
  (forall record', record = record' -> format_message record = format_message record') /\
  (forall w : World V, lift (format_message record) w = (format_message record, w)) /\
  ((4 <= length record)%nat ->
     exists record_id message_text recipient created_at rest,
       record = record_id :: message_text :: recipient :: created_at :: rest /\
       format_message record =
         Returns ("<b>ðŸ“¨ New Message</b>" +:+ newline
                  +:+ "<b>ID:</b> " +:+ py_str record_id +:+ newline
                  +:+ "<b>To:</b> " +:+ py_str recipient +:+ newline
                  +:+ "<b>Message:</b> " +:+ py_str message_text +:+ newline
                  +:+ "<b>Time:</b> " +:+ py_str created_at)) /\
  ((length record < 4)%nat ->
     format_message record = Returns ("<b>ðŸ“¨ Record:</b> " +:+ row_str record)).
Proof.
  split; [|split; [|split]].
  - intros record' <-. reflexivity.
  - reflexivity.
  - intros Hlen.
    destruct record as [|a [|b [|c [|d rest]]]]; simpl in Hlen; try lia.
    exists a, b, c, d, rest. split; [reflexivity|].
    unfold format_message.
    replace (4 <=? length (a :: b :: c :: d :: rest))%nat with true
      by (symmetry; apply Nat.leb_le; simpl; lia).
    reflexivity.
  - intros Hlen. unfold format_message.
    replace (4 <=? length record)%nat with false
      by (symmetry; apply Nat.leb_gt; lia).
    reflexivity.
Qed.

End Formatter.

Lemma format_message_spec_witness :
  format_message (V := value) [VInt 7; VStr "hi"; VStr "ann"; VTime "2024-01-01 10:00:00"; VNone] =
    Returns ("<b>ðŸ“¨ New Message</b>" +:+ newline
             +:+ "<b>ID:</b> 7" +:+ newline
             +:+ "<b>To:</b> ann" +:+ newline
             +:+ "<b>Message:</b> hi" +:+ newline
             +:+ "<b>Time:</b> 2024-01-01 10:00:00") /\
  format_message (V := value) [VInt 7; VStr "hi"] =
    Returns "<b>ðŸ“¨ Record:</b> (7, 'hi')".
Proof.
  split.
  - destruct (proj1 (proj2 (proj2 (format_message_spec
        [VInt 7; VStr "hi"; VStr "ann"; VTime "2024-01-01 10:00:00"; VNone]))))
      as (a & b & c & d & rest & Heq & Hfmt).
    + simpl. lia.
    + injection Heq as <- <- <- <- <-. exact Hfmt.
  - assert (Hshort : (length [VInt 7; VStr "hi"] < 4)%nat) by (simpl; lia).
    exact (proj2 (proj2 (proj2 (format_message_spec [VInt 7; VStr "hi"]))) Hshort).
Defined.

(** ** The methods against the world *)

Section Methods.

Context {V : Type} `{PyObject V}.

Implicit Types (w : World V) (self : DatabaseTelegramBot).

Lemma posted_chat_ids_app (t1 t2 : list (event V)) :
  posted_chat_ids (t1 ++ t2) = (posted_chat_ids t1 ++ posted_chat_ids t2)%list.
Proof.
  induction t1 as [|e t1 IH]; [reflexivity|].
  destruct e; simpl; rewrite IH; reflexivity.
Qed.

Ltac run_monad :=
  unfold try_except, lift, raise, log, sleep, emit, Exception;
  unfold mbind, M_bind, mret, M_ret; simpl.

Lemma raise_for_status_ok (r : response) w :
  is_error_status (status_code r) = false ->
  raise_for_status r w = (Returns tt, w).
Proof.
  unfold raise_for_status, is_error_status. intros Hst.
  destruct (400 <=? status_code r)%Z eqn:E4, (status_code r <? 500)%Z eqn:E5,
    (500 <=? status_code r)%Z eqn:E6, (status_code r <? 600)%Z eqn:E7;
    simpl in *; try discriminate; try reflexivity; lia.
Qed.

Lemma raise_for_status_error (r : response) w :
  is_error_status (status_code r) = true ->
  exists e, raise_for_status r w = (Raises e, w) /\ exn_cls e = HTTPError.
Proof.
  unfold raise_for_status, is_error_status. intros Hst.
  destruct (400 <=? status_code r)%Z eqn:E4, (status_code r <? 500)%Z eqn:E5,
    (500 <=? status_code r)%Z eqn:E6, (status_code r <? 600)%Z eqn:E7;
    simpl in *; try discriminate; try (eexists; split; reflexivity); lia.
Qed.

(** The three ways one call of [send_telegram_message] can end. *)
Lemma send_cases self text chat w :
  let dest := if py_bool chat then chat else py_of_opt (telegram_chat_id self) in
  let url := "https://api.telegram.org/bot" +:+ str_opt (telegram_token self)
             +:+ "/sendMessage" in
  let posted := set_posts (S (posts w))
                  (set_trace (trace w ++ [EvPost url dest text "HTML" 30])%list w) in
  exists logged,
    send_telegram_message self text chat w =
      (match http w (posts w) with
       | Responded st _ => Returns (negb (is_error_status st))
       | PostRaises e => if is_RequestException e then Returns false else Raises e
       end,
       set_trace (trace posted ++ logged)%list posted) /\
    posted_chat_ids logged = [] /\
    (logged = [] <-> exists e, http w (posts w) = PostRaises e /\ is_RequestException e = false).
Proof.
  intros dest url posted.
  unfold send_telegram_message, requests_post, endpoint_answer. run_monad.
  destruct (http w (posts w)) as [st rs|e] eqn:Hhttp.
  - destruct (is_error_status st) eqn:Hst.
    + match goal with
      | |- context [raise_for_status ?r ?w'] =>
          destruct (raise_for_status_error r w' Hst) as (e & Hr & Hcls); rewrite Hr
      end.
      unfold is_RequestException. rewrite Hcls. simpl.
      eexists [_]. split; [reflexivity|]. split; [reflexivity|].
      split; [discriminate|]. intros (e' & He' & _). discriminate.
    + match goal with
      | |- context [raise_for_status ?r ?w'] =>
          rewrite (raise_for_status_ok r w' Hst)
      end.
      simpl. eexists [_]. split; [reflexivity|]. split; [reflexivity|].
      split; [discriminate|]. intros (e' & He' & _). discriminate.
  - destruct (is_RequestException e) eqn:Hcls; simpl.
    + eexists [_]. split; [reflexivity|]. split; [reflexivity|].
      split; [discriminate|]. intros (e' & [= <-] & He'). congruence.
    + exists []. split.
      * unfold posted. simpl. rewrite app_nil_r. reflexivity.
      * split; [reflexivity|]. split; [|reflexivity]. intros _. eauto.
Qed.

(** C7: [send_telegram_message] returns [True] exactly when the endpoint
    answers with a status outside 400..599; it returns [False], and raises
    nothing, when the status is in that range, when the connection fails and
    when the timeout expires; and in every case it has made exactly one
    POST. *)
Theorem send_result self (text : string) (chat : V) w :
  let r := send_telegram_message self text chat w in
  (fst r = Returns true <->
     exists st rs, http w (posts w) = Responded st rs /\ is_error_status st = false) /\
  (forall st rs, http w (posts w) = Responded st rs ->
     is_error_status st = true -> fst r = Returns false) /\
  (forall e, http w (posts w) = PostRaises e ->
     exn_cls e = ConnectionError \/ exn_cls e = Timeout \/
     exn_cls e = HTTPError \/ exn_cls e = RequestException ->
     fst r = Returns false) /\
  posts (snd r) = S (posts w) /\
  length (posted_chat_ids (trace (snd r))) = S (length (posted_chat_ids (trace w))).
Proof.
  destruct (send_cases self text chat w) as (logged & Hsend & Hlogged & _).
  cbv zeta. rewrite Hsend. simpl. clear Hsend.
  split; [|split; [|split; [|split]]].
  - destruct (http w (posts w)) as [st rs|e].
    + split.
      * intros [= Hst]. exists st, rs. split; [reflexivity|].
        destruct (is_error_status st); [discriminate|reflexivity].
      * intros (st' & rs' & [= <- <-] & ->). reflexivity.
    + split.
      * destruct (is_RequestException e); discriminate.
      * intros (st & rs & Habs & _). discriminate.
  - intros st rs -> ->. reflexivity.
  - intros e -> Hcls. unfold is_RequestException.
    destruct Hcls as [-> | [-> | [-> | ->]]]; reflexivity.
  - reflexivity.
  - rewrite !posted_chat_ids_app, Hlogged. simpl.
    rewrite app_nil_r, length_app. simpl. lia.
Qed.

(** C10: the POST goes to the supplied destination only if it is truthy;
    for a falsy one ([None], the empty text, ...) it goes to the configured
    destination, which for a bot built by [__init__] is another object than
    the falsy one supplied. *)
Theorem falsy_destination_replaced self (text : string) (chat : V) w :
  posted_chat_ids (trace (snd (send_telegram_message self text chat w))) =
    (posted_chat_ids (trace w)
     ++ [if py_bool chat then chat else py_of_opt (telegram_chat_id self)])%list /\
  (py_bool chat = false ->
     posted_chat_ids (trace (snd (send_telegram_message self text chat w))) =
       (posted_chat_ids (trace w) ++ [py_of_opt (telegram_chat_id self)])%list /\
     forall env, __init__ env = Returns self ->
       py_of_opt (telegram_chat_id self) <> chat) /\
  py_bool (py_of_str "") = false /\
  py_bool py_None = false.
Proof.
  destruct (send_cases self text chat w) as (logged & Hsend & Hlogged & _).
  assert (Hposted :
    posted_chat_ids (trace (snd (send_telegram_message self text chat w))) =
      (posted_chat_ids (trace w)
       ++ [if py_bool chat then chat else py_of_opt (telegram_chat_id self)])%list).
  { rewrite Hsend. simpl. rewrite !posted_chat_ids_app, Hlogged. simpl.
    rewrite app_nil_r. reflexivity. }
  split; [exact Hposted|]. split; [|split].
  - intros Hfalsy. split.
    + rewrite Hposted, Hfalsy. reflexivity.
    + intros env Hinit Heq.
      destruct (init_chat_id env self Hinit) as (s & Hs & Hne).
      rewrite Hs in Heq. simpl in Heq. rewrite <- Heq in Hfalsy.
      rewrite py_bool_of_str in Hfalsy.
      destruct (String.eqb_spec s ""); [contradiction|discriminate].
  - rewrite py_bool_of_str. reflexivity.
  - apply py_bool_None.
Qed.

(** *** Leaving a frame *)

Lemma drop_frame_unopened (entry : nat) w :
  next_conn w = entry -> drop_frame entry w = w.
Proof.
  intros <-. unfold drop_frame. rewrite Nat.ltb_irrefl. reflexivity.
Qed.

Lemma drop_frame_opened (entry : nat) w :
  next_conn w = S entry ->
  drop_frame entry w = set_conns (delete entry (conns w)) w.
Proof.
  intros Hnext. unfold drop_frame. rewrite Hnext.
  replace (entry <? S entry)%nat with true by (symmetry; apply Nat.ltb_lt; lia).
  reflexivity.
Qed.

Lemma drop_frame_rest (entry : nat) w :
  table (drop_frame entry w) = table w /\ posts (drop_frame entry w) = posts w /\
  http (drop_frame entry w) = http w /\ db_fault (drop_frame entry w) = db_fault w /\
  db_calls (drop_frame entry w) = db_calls w /\ trace (drop_frame entry w) = trace w /\
  next_conn (drop_frame entry w) = next_conn w.
Proof.
  unfold drop_frame. destruct (entry <? next_conn w)%nat; repeat split.
Qed.

Lemma call_fst {A : Type} (body : M V A) w : fst (call body w) = fst (body w).
Proof. unfold call. destruct (body w). reflexivity. Qed.

Lemma call_table {A : Type} (body : M V A) w :
  table (snd (call body w)) = table (snd (body w)).
Proof. unfold call. destruct (body w). apply drop_frame_rest. Qed.

Lemma call_posts {A : Type} (body : M V A) w :
  posts (snd (call body w)) = posts (snd (body w)).
Proof. unfold call. destruct (body w). apply drop_frame_rest. Qed.

Lemma call_http {A : Type} (body : M V A) w :
  http (snd (call body w)) = http (snd (body w)).
Proof. unfold call. destruct (body w). apply drop_frame_rest. Qed.

Lemma call_db_fault {A : Type} (body : M V A) w :
  db_fault (snd (call body w)) = db_fault (snd (body w)).
Proof. unfold call. destruct (body w). apply drop_frame_rest. Qed.

Lemma call_db_calls {A : Type} (body : M V A) w :
  db_calls (snd (call body w)) = db_calls (snd (body w)).
Proof. unfold call. destruct (body w). apply drop_frame_rest. Qed.

Lemma call_trace {A : Type} (body : M V A) w :
  trace (snd (call body w)) = trace (snd (body w)).
Proof. unfold call. destruct (body w). apply drop_frame_rest. Qed.

Lemma call_conns {A : Type} (body : M V A) w :
  conns (snd (call body w)) = conns (drop_frame (next_conn w) (snd (body w))).
Proof. unfold call. destruct (body w). reflexivity. Qed.

(** Enters [fetch_pending_messages] or [delete_processed_records]: what is
    asked of the call is asked of its body, the registry apart. *)
Ltac enter :=
  unfold fetch_pending_messages, delete_processed_records;
  rewrite ?call_fst, ?call_table, ?call_posts, ?call_http, ?call_db_fault,
    ?call_db_calls, ?call_trace.

Ltac run_db :=
  unfold get_db_connection, pyodbc_connect, open_conn, conn_cursor,
    cursor_execute_select, select_rows, cursor_fetchall,
    cursor_execute_delete, delete_rows, conn_commit, commit_image,
    cursor_close, conn_close, drop_conn, driver_call;
  run_monad.

(** Splits on what the fault oracle says for the next call of the driver. *)
Ltac next_fault :=
  match goal with
  | |- context [db_fault ?w ?n] =>
      let F := fresh "F" in
      destruct (db_fault w n) eqn:F; simpl
  end.

(** C4: [fetch_pending_messages] always returns a list; if any of its six
    calls into the driver fails (the connection at offset 0, the cursor at 1,
    the query at 2, [fetchall] at 3, the two [close] at 4 and 5), the list is
    empty. *)
Theorem fetch_never_raises self w :
  (exists records, fst (fetch_pending_messages self w) = Returns records) /\
  (forall k, (k < 6)%nat -> db_fault w (k + db_calls w)%nat <> None ->
     fst (fetch_pending_messages self w) = Returns []).
Proof.
  enter. run_db.
  repeat next_fault;
    (split; [eexists; reflexivity|]);
    intros k Hk Hfault; try reflexivity;
    do 6 (destruct k as [|k]; [simpl in Hfault; congruence|]); lia.
Qed.

(** With no fault in its six calls, [fetch_pending_messages] returns the
    committed rows, having closed the connection it opened. *)
Lemma fetch_ok self w :
  (forall k, (k < 6)%nat -> db_fault w (k + db_calls w)%nat = None) ->
  fst (fetch_pending_messages self w) = Returns (table w) /\
  conns (snd (fetch_pending_messages self w)) = delete (next_conn w) (conns w) /\
  table (snd (fetch_pending_messages self w)) = table w /\
  In (EvClose (next_conn w)) (trace (snd (fetch_pending_messages self w))).
Proof.
  intros Hok.
  pose proof (Hok 0%nat ltac:(lia)) as F0. pose proof (Hok 1%nat ltac:(lia)) as F1.
  pose proof (Hok 2%nat ltac:(lia)) as F2. pose proof (Hok 3%nat ltac:(lia)) as F3.
  pose proof (Hok 4%nat ltac:(lia)) as F4. pose proof (Hok 5%nat ltac:(lia)) as F5.
  simpl in F0, F1, F2, F3, F4, F5.
  enter. rewrite call_conns. run_db.
  rewrite F0; simpl. rewrite F1; simpl. rewrite F2; simpl. rewrite F3; simpl.
  rewrite F4; simpl. rewrite F5; simpl.
  unfold visible; simpl. rewrite lookup_insert_eq.
  split; [reflexivity|]. split; [|split; [reflexivity|]].
  - rewrite drop_frame_opened by reflexivity. simpl.
    rewrite delete_insert_eq. apply delete_delete_eq.
  - rewrite !in_app_iff. simpl. tauto.
Qed.



(** The events of a trace that are calls of [close()]. *)
Lemma closed_conns_app (t1 t2 : list (event V)) :
  closed_conns (t1 ++ t2) = (closed_conns t1 ++ closed_conns t2)%list.
Proof.
  induction t1 as [|e t1 IH]; [reflexivity|].
  destruct e; simpl; rewrite IH; reflexivity.
Qed.

(** X6: when the connection opens and a later call fails before
    [conn.close()] (the cursor, the query, [fetchall], [cursor.close()]),
    [fetch_pending_messages] returns the empty list without having called
    [close()] on any connection. *)
Theorem fetch_failure_skips_close self w k :
  db_fault w (db_calls w) = None ->
  (1 <= k < 5)%nat ->
  db_fault w (k + db_calls w)%nat <> None ->
  fst (fetch_pending_messages self w) = Returns [] /\
  closed_conns (trace (snd (fetch_pending_messages self w))) = closed_conns (trace w).
Proof.
  intros F0 Hk Hfault.
  enter. run_db. rewrite F0; simpl.
  repeat next_fault;
    try (split; [reflexivity|];
         rewrite !closed_conns_app; simpl; rewrite !app_nil_r; reflexivity);
    do 5 (destruct k as [|k]; [simpl in Hfault; try congruence; lia|]); lia.
Qed.

(** C8: [delete_processed_records] never raises.  For the empty list it
    leaves the world as it is: no call to the driver, no event.  For a
    non-empty list, a failure of the connection (offset 0), of the cursor
    (1), of the DELETE (2) or of the commit (3) is logged as an error, and
    the committed rows are as before, there to be fetched again. *)
Theorem delete_never_raises self (ids : list V) w :
  delete_processed_records self [] w = (Returns tt, w) /\
  fst (delete_processed_records self ids w) = Returns tt /\
  (ids <> [] ->
   forall k, (k < 4)%nat -> db_fault w (k + db_calls w)%nat <> None ->
     table (snd (delete_processed_records self ids w)) = table w /\
     exists e earlier,
       trace (snd (delete_processed_records self ids w)) =
         (earlier ++ [EvLog ERROR ("Error deleting processed records: " +:+ exn_text e)])%list).
Proof.
  assert (Hnil : delete_processed_records self [] w = (Returns tt, w)).
  { unfold delete_processed_records, call. simpl.
    rewrite drop_frame_unopened by reflexivity. reflexivity. }
  split; [exact Hnil|].
  destruct ids as [|i ids]; [split; [rewrite Hnil; reflexivity|congruence]|].
  enter. run_db.
  repeat next_fault;
    (split; [reflexivity|]);
    intros _ k Hk Hfault;
    try (split; [reflexivity|eexists _, _; reflexivity]);
    do 4 (destruct k as [|k]; [simpl in Hfault; congruence|]); lia.
Qed.

(** With no fault in its six calls, the rows whose identifier is in the
    list leave the committed table. *)
Lemma delete_ok self (ids : list V) w :
  ids <> [] ->
  (forall k, (k < 6)%nat -> db_fault w (k + db_calls w)%nat = None) ->
  table (snd (delete_processed_records self ids w)) =
    List.filter (fun r => negb (id_in ids r)) (table w).
Proof.
  intros Hne Hok.
  pose proof (Hok 0%nat ltac:(lia)) as F0. pose proof (Hok 1%nat ltac:(lia)) as F1.
  pose proof (Hok 2%nat ltac:(lia)) as F2. pose proof (Hok 3%nat ltac:(lia)) as F3.
  pose proof (Hok 4%nat ltac:(lia)) as F4. pose proof (Hok 5%nat ltac:(lia)) as F5.
  simpl in F0, F1, F2, F3, F4, F5.
  destruct ids as [|i ids]; [congruence|].
  enter. run_db.
  rewrite F0; simpl. rewrite F1; simpl. rewrite F2; simpl. rewrite F3; simpl.
  rewrite F4; simpl. rewrite F5; simpl.
  unfold visible; simpl. rewrite !lookup_insert_eq. reflexivity.
Qed.

(** ** The relay cycle *)

Lemma same_store_refl w : same_store w w.
Proof. repeat split. Qed.

Lemma same_store_trans w1 w2 w3 :
  same_store w1 w2 -> same_store w2 w3 -> same_store w1 w3.
Proof.
  unfold same_store. intros (?&?&?&?&?&?) (?&?&?&?&?&?).
  repeat split; congruence.
Qed.

Lemma format_message_returns (record : list V) :
  exists text, format_message record = Returns text.
Proof.
  unfold format_message. destruct (4 <=? length record)%nat eqn:E.
  - apply Nat.leb_le in E.
    destruct record as [|a [|b [|c [|d rest]]]]; simpl in E; try lia.
    eexists. reflexivity.
  - eexists. reflexivity.
Qed.

(** One turn of the loop on a record that has an identifier: one POST, and
    the identifier is appended exactly when the POST is acknowledged. *)
Lemma process_record_with_id self (i : V) (fields ids : list V) w :
  exists w',
    process_record self (i :: fields) ids w =
      (Returns (if acknowledged (http w (posts w)) then ids ++ [i] else ids)%list, w') /\
    posts w' = S (posts w) /\ same_store w w'.
Proof.
  unfold process_record.
  destruct (format_message_returns (i :: fields)) as (text & ->).
  destruct (send_cases self text py_None w) as (logged & Hsend & _).
  run_monad. rewrite Hsend. unfold acknowledged.
  destruct (http w (posts w)) as [st rs|e]; simpl.
  - destruct (is_error_status st); simpl;
      eexists; (split; [reflexivity|]); split; [reflexivity| |reflexivity|];
      repeat split.
  - destruct (is_RequestException e); simpl;
      eexists; (split; [reflexivity|]); split; [reflexivity| |reflexivity|];
      repeat split.
Qed.

(** A record with no field: whatever the endpoint answers, [record[0]]
    raises, in the [try] block or already in the handler that was to log the
    failure, and once more in the handler: the exception leaves the loop
    body. *)
Lemma process_record_no_fields self (ids : list V) w :
  exists w',
    process_record self [] ids w =
      (Raises (Exn IndexError "tuple index out of range"), w') /\
    posts w' = S (posts w).
Proof.
  unfold process_record.
  destruct (format_message_returns []) as (text & ->).
  destruct (send_cases self text py_None w) as (logged & Hsend & _).
  run_monad. rewrite Hsend.
  destruct (http w (posts w)) as [st rs|e]; simpl.
  - destruct (is_error_status st); simpl; eexists; split; reflexivity.
  - destruct (is_RequestException e); simpl; eexists; split; reflexivity.
Qed.

(** A POST that raises something else than a [RequestException]: the
    exception passes through [send_telegram_message], the handler of the
    loop body logs it with the record's identifier, and the turn ends
    normally with the list unchanged. *)
Lemma process_record_unexpected_error self (i : V) (fields ids : list V) w e :
  http w (posts w) = PostRaises e ->
  is_RequestException e = false ->
  exists w',
    process_record self (i :: fields) ids w = (Returns ids, w') /\
    last (trace w') =
      Some (EvLog ERROR ("Error processing record " +:+ py_str i +:+ ": " +:+ exn_text e)) /\
    posts w' = S (posts w).
Proof.
  intros Hhttp Hcls. unfold process_record.
  destruct (format_message_returns (i :: fields)) as (text & ->).
  destruct (send_cases self text py_None w) as (logged & Hsend & _).
  run_monad. rewrite Hsend, Hhttp, Hcls. simpl.
  eexists. split; [reflexivity|]. split; [|reflexivity].
  simpl. apply last_snoc.
Qed.

Lemma for_records_with_ids self (records : list (list V)) :
  Forall (fun record => record <> []) records ->
  forall (ids : list V) w,
  exists w',
    for_records self records ids w =
      (Returns (ids ++ succeeded_ids (http w) (posts w) records)%list, w') /\
    posts w' = (posts w + length records)%nat /\ same_store w w'.
Proof.
  induction 1 as [|record rest Hrecord _ IH]; intros ids w.
  - exists w. simpl. rewrite app_nil_r, Nat.add_0_r.
    split; [reflexivity|]. split; [reflexivity|apply same_store_refl].
  - destruct record as [|i fields]; [congruence|].
    destruct (process_record_with_id self i fields ids w) as (w1 & Hstep & Hposts & Hsame).
    destruct (IH (if acknowledged (http w (posts w)) then ids ++ [i] else ids)%list w1)
      as (w2 & Hloop & Hposts2 & Hsame2).
    exists w2. split; [|split].
    + simpl. unfold mbind, M_bind. rewrite Hstep, Hloop.
      destruct Hsame as (_&_&_&_&_&Hhttp). rewrite Hhttp, Hposts.
      destruct (acknowledged (http w (posts w))); [rewrite <- app_assoc|]; reflexivity.
    + rewrite Hposts2, Hposts. simpl. lia.
    + eapply same_store_trans; eassumption.
Qed.

(** C2, amended: when every fetched record has at least one field, the loop
    never raises and makes one POST for each record, whatever the endpoint
    does; and an unexpected exception met while processing one of these
    records is logged with the identifier of that record, after which the
    turn ends normally. *)
Theorem per_record_errors_isolated self (records : list (list V)) :
  Forall (fun record => record <> []) records ->
  forall (ids : list V) w,
  (exists ids' w',
     for_records self records ids w = (Returns ids', w') /\
     posts w' = (posts w + length records)%nat) /\
  (forall record e,
     In record records ->
     http w (posts w) = PostRaises e -> is_RequestException e = false ->
     exists i fields w',
       record = i :: fields /\
       process_record self record ids w = (Returns ids, w') /\
       last (trace w') =
         Some (EvLog ERROR ("Error processing record " +:+ py_str i +:+ ": "
                            +:+ exn_text e))).
Proof.
  intros Hrecords ids w. split.
  - destruct (for_records_with_ids self records Hrecords ids w)
      as (w' & Hloop & Hposts & _).
    eauto.
  - intros record e Hin Hhttp Hcls.
    rewrite Forall_forall in Hrecords. apply list_elem_of_In in Hin.
    specialize (Hrecords record Hin).
    destruct record as [|i fields]; [congruence|].
    destruct (process_record_unexpected_error self i fields ids w e Hhttp Hcls)
      as (w' & Hstep & Hlog & _).
    exists i, fields, w'. auto.
Qed.

(** C1, amended: a cycle whose fetched records all carry an identifier makes one POST
    per record, collects the identifiers of the records whose POST was
    acknowledged, in the order of the records, and, if that list is not
    empty, ends with [delete_processed_records] applied to exactly that list
    followed by the summary log; if the list is empty, the cycle ends where
    the loop ended, with no call of the delete step. *)
Theorem relay_cycle_deletes_successes self w (records : list (list V)) w1 :
  fetch_pending_messages self w = (Returns records, w1) ->
  Forall (fun record => record <> []) records ->
  let ids := succeeded_ids (http w1) (posts w1) records in
  exists w2,
    for_records self records [] w1 = (Returns ids, w2) /\
    posts w2 = (posts w1 + length records)%nat /\
    same_store w1 w2 /\
    process_messages self w =
      match records, ids with
      | [], _ => log DEBUG "No pending messages found" w1
      | _, [] => (Returns tt, w2)
      | _, _ =>
          log INFO ("Processing cycle completed. Sent "
                    +:+ str_nat (length ids) +:+ " messages")
            (snd (delete_processed_records self ids w2))
      end.
Proof.
  intros Hfetch Hrecords ids.
  destruct (for_records_with_ids self records Hrecords [] w1)
    as (w2 & Hloop & Hposts & Hsame).
  simpl in Hloop. fold ids in Hloop.
  exists w2. split; [exact Hloop|]. split; [exact Hposts|]. split; [exact Hsame|].
  unfold process_messages, try_except. unfold mbind at 1, M_bind at 1.
  rewrite Hfetch.
  destruct records as [|record rest]; [reflexivity|].
  unfold mbind at 1, M_bind at 1. rewrite Hloop.
  destruct ids as [|i ids']; [reflexivity|].
  unfold mbind, M_bind.
  pose proof (proj1 (proj2 (delete_never_raises self (i :: ids') w2))) as Hdel.
  destruct (delete_processed_records self (i :: ids') w2) as [[[]|e] w3];
    [reflexivity|discriminate].
Qed.

End Methods.

(** ** The cycle on concrete stores *)

(** A fault-free store with rows [(1, "hi", "a", t1)] and
    [(2, "bye", "b", t2)] and an endpoint that accepts everything: both
    rows are posted, delete is bound to [1, 2], the table is empty. *)
Example cycle_two_rows :
  let r := process_messages example_bot (fresh_world two_rows no_fault always_ok) in
  fst r = Returns tt /\
  table (snd r) = [] /\
  posts (snd r) = 2%nat /\
  In (EvExecute 1 "DELETE FROM your_table_name WHERE id IN (?,?)" [VInt 1; VInt 2])
     (trace (snd r)) /\
  last (trace (snd r)) = Some (EvLog INFO "Processing cycle completed. Sent 2 messages").
Proof.
  cbv zeta.
  split; [vm_compute; reflexivity|].
  split; [vm_compute; reflexivity|].
  split; [vm_compute; reflexivity|].
  split; [|vm_compute; reflexivity].
  vm_compute. tauto.
Qed.

(** One row, and an endpoint that refuses it: no delete, the row stays. *)
Example cycle_send_fails :
  let t := [[VInt 3; VStr "x"; VStr "c"; VTime "2024-01-01 10:10:00"]] in
  let r := process_messages example_bot
             (fresh_world t no_fault (fun _ => Responded 500 "Internal Server Error")) in
  fst r = Returns tt /\ table (snd r) = t /\ db_calls (snd r) = 6%nat /\
  last (trace (snd r)) = Some (EvSleep 1).
Proof.
  cbv zeta.
  split; [vm_compute; reflexivity|].
  split; [vm_compute; reflexivity|].
  split; vm_compute; reflexivity.
Qed.

(** No row: no POST, no delete. *)
Example cycle_no_rows :
  let r := process_messages example_bot (fresh_world (V := value) [] no_fault always_ok) in
  fst r = Returns tt /\ posts (snd r) = 0%nat /\ db_calls (snd r) = 6%nat /\
  last (trace (snd r)) = Some (EvLog DEBUG "No pending messages found").
Proof.
  cbv zeta.
  split; [vm_compute; reflexivity|].
  split; [vm_compute; reflexivity|].
  split; vm_compute; reflexivity.
Qed.

(** Once the loop meets a record with no field, it is left by the
    [IndexError]: the records after it are not looked at. *)
Lemma for_records_no_fields {V : Type} `{PyObject V} (self : DatabaseTelegramBot)
    (rest : list (list V)) (ids : list V) (w : World V) :
  exists w',
    for_records self ([] :: rest) ids w =
      (Raises (Exn IndexError "tuple index out of range"), w') /\
    posts w' = S (posts w).
Proof.
  destruct (process_record_no_fields self ids w) as (w' & Hstep & Hposts).
  exists w'. split; [|exact Hposts].
  simpl. unfold mbind, M_bind. rewrite Hstep. reflexivity.
Qed.

(** C2, as stated, fails for a record with no field.  The handler of the
    loop body evaluates [record[0]] to log the failure, which raises again,
    so the exception leaves the loop whatever follows in the list.  With the
    records [(1, ...)], [()] and [(2, ...)] fetched and an endpoint that
    accepts everything, the cycle makes two POSTs and stops: record 2 is not
    sent, nothing is deleted, and the only error logged is the one of the
    whole cycle. *)
Theorem record_without_fields_aborts_cycle :
  (forall (self : DatabaseTelegramBot) (rest : list (list value)) (ids : list value)
          (w : World value),
     fst (for_records self ([] :: rest) ids w) =
       Raises (Exn IndexError "tuple index out of range") /\
     posts (snd (for_records self ([] :: rest) ids w)) = S (posts w)) /\
  let r := process_messages example_bot (fresh_world three_fetched no_fault always_ok) in
  fst r = Returns tt /\
  posts (snd r) = 2%nat /\
  db_calls (snd r) = 6%nat /\
  table (snd r) = three_fetched /\
  last (trace (snd r)) =
    Some (EvLog ERROR "Error in process_messages: tuple index out of range").
Proof.
  split.
  - intros self rest ids w.
    destruct (for_records_no_fields self rest ids w) as (w' & -> & Hposts).
    split; [reflexivity|exact Hposts].
  - cbv zeta.
    split; [vm_compute; reflexivity|].
    split; [vm_compute; reflexivity|].
    split; [vm_compute; reflexivity|].
    split; vm_compute; reflexivity.
Qed.

Lemma relay_cycle_deletes_successes_witness :
  let w := fresh_world two_rows no_fault
             (fun n => if Nat.eqb n 0 then Responded 403 "Forbidden" else Responded 200 "OK") in
  let w1 := snd (fetch_pending_messages example_bot w) in
  exists w2,
    for_records example_bot two_rows [] w1 = (Returns [VInt 2], w2) /\
    posts w2 = 2%nat /\
    same_store w1 w2 /\
    process_messages example_bot w =
      log INFO "Processing cycle completed. Sent 1 messages"
        (snd (delete_processed_records example_bot [VInt 2] w2)).
Proof.
  intros w w1.
  refine (relay_cycle_deletes_successes example_bot w two_rows w1 _ _).
  - vm_compute. reflexivity.
  - repeat constructor; discriminate.
Defined.

Lemma fetch_never_raises_witness :
  fst (fetch_pending_messages example_bot
         (fresh_world two_rows (fault_at 0 (Exn DatabaseError "Login timeout expired"))
            always_ok)) = Returns [] /\
  fst (fetch_pending_messages example_bot
         (fresh_world two_rows (fault_at 2 (Exn DatabaseError "Invalid object name"))
            always_ok)) = Returns [].
Proof.
  split.
  - refine (proj2 (fetch_never_raises example_bot _) 0%nat _ _); [lia|].
    vm_compute. discriminate.
  - refine (proj2 (fetch_never_raises example_bot _) 2%nat _ _); [lia|].
    vm_compute. discriminate.
Defined.

Lemma send_result_witness :
  fst (send_telegram_message example_bot "hello" VNone
         (fresh_world two_rows no_fault always_ok)) = Returns true /\
  fst (send_telegram_message example_bot "hello" VNone
         (fresh_world two_rows no_fault (fun _ => Responded 404 "Not Found")))
    = Returns false /\
  fst (send_telegram_message example_bot "hello" VNone
         (fresh_world two_rows no_fault
            (fun _ => PostRaises (Exn Timeout "Read timed out. (read timeout=30)"))))
    = Returns false.
Proof.
  split; [|split].
  - apply (proj1 (send_result example_bot "hello" VNone
                    (fresh_world two_rows no_fault always_ok))).
    exists 200, "OK". split; reflexivity.
  - apply (proj1 (proj2 (send_result example_bot "hello" VNone
                    (fresh_world two_rows no_fault (fun _ => Responded 404 "Not Found"))))
             404 "Not Found"); reflexivity.
  - apply (proj1 (proj2 (proj2 (send_result example_bot "hello" VNone
                    (fresh_world two_rows no_fault
                       (fun _ => PostRaises (Exn Timeout "Read timed out. (read timeout=30)"))))))
             (Exn Timeout "Read timed out. (read timeout=30)")); [reflexivity|].
    right. left. reflexivity.
Defined.

Lemma delete_never_raises_witness :
  let w := fresh_world two_rows (fault_at 3 (Exn DatabaseError "Communication link failure"))
             always_ok in
  table (snd (delete_processed_records example_bot [VInt 1; VInt 2] w)) = two_rows /\
  fst (delete_processed_records example_bot [VInt 1; VInt 2] w) = Returns tt.
Proof.
  intros w. split.
  - refine (proj1 (proj2 (proj2 (delete_never_raises example_bot [VInt 1; VInt 2] w))
                     _ 3%nat _ _)).
    + discriminate.
    + lia.
    + vm_compute. discriminate.
  - exact (proj1 (proj2 (delete_never_raises example_bot [VInt 1; VInt 2] w))).
Defined.

Lemma falsy_destination_replaced_witness :
  let w := fresh_world two_rows no_fault always_ok in
  posted_chat_ids (trace (snd (send_telegram_message example_bot "hello" (VInt 0) w)))
    = [VStr "42"] /\
  posted_chat_ids (trace (snd (send_telegram_message example_bot "hello" (VStr "") w)))
    = [VStr "42"] /\
  VStr "42" <> VInt 0.
Proof.
  intros w.
  assert (Hzero : py_bool (VInt 0) = false) by reflexivity.
  assert (Hempty : py_bool (VStr "") = false) by reflexivity.
  split; [|split].
  - exact (proj1 (proj1 (proj2 (falsy_destination_replaced example_bot "hello" (VInt 0) w))
                    Hzero)).
  - exact (proj1 (proj1 (proj2 (falsy_destination_replaced example_bot "hello" (VStr "") w))
                    Hempty)).
  - apply (proj2 (proj1 (proj2 (falsy_destination_replaced example_bot "hello" (VInt 0) w))
                    Hzero) full_env).
    vm_compute. reflexivity.
Defined.


(** C1, as stated, fails when a fetched record has no field.  With the
    records [(1, ...)], [()] and [(2, ...)] fetched and an endpoint that
    accepts everything, the send for record 1 succeeds and its identifier is
    collected; the record without fields then takes the exception out of the
    loop, and the cycle ends after two POSTs without any call of the delete
    step: the six calls to the driver are those of the fetch, the only
    statement executed is the SELECT, and the table is as it was. *)
Lemma relay_cycle_fieldless_record_counterexample :
  let w := fresh_world three_fetched no_fault always_ok in
  let w1 := snd (fetch_pending_messages example_bot w) in
  let r := process_messages example_bot w in
  fst (fetch_pending_messages example_bot w) = Returns three_fetched /\
  fst (process_record example_bot
         [VInt 1; VStr "hi"; VStr "a"; VTime "2024-01-01 10:00:00"] [] w1)
    = Returns [VInt 1] /\
  posts (snd r) = 2%nat /\
  db_calls (snd r) = 6%nat /\
  (forall conn query ids, In (EvExecute conn query ids) (trace (snd r)) -> ids = []) /\
  table (snd r) = three_fetched.
Proof.
  cbv zeta.
  split; [vm_compute; reflexivity|].
  split; [vm_compute; reflexivity|].
  split; [vm_compute; reflexivity|].
  split; [vm_compute; reflexivity|].
  split; [|vm_compute; reflexivity].
  intros conn query ids Hin. vm_compute in Hin.
  repeat (destruct Hin as [Hin|Hin]; [try discriminate Hin|]).
  - injection Hin as _ _ <-. reflexivity.
  - destruct Hin.
Qed.

Lemma per_record_errors_isolated_witness :
  let w := fresh_world two_rows no_fault
             (fun n => if Nat.eqb n 0
                       then PostRaises (Exn TypeError "Object of type datetime is not JSON serializable")
                       else Responded 200 "OK") in
  exists ids' w',
    for_records example_bot two_rows [] w = (Returns ids', w') /\
    posts w' = 2%nat.
Proof.
  intros w.
  refine (proj1 (per_record_errors_isolated example_bot two_rows _ [] w)).
  repeat constructor; discriminate.
Defined.

(** * Further properties of the code *)

(** ** Configuration *)

(** X1: construction succeeds only from an environment whose six required
    settings are non-empty and whose poll interval reads as an integer; the
    bot then holds exactly these values. *)
Theorem init_stores_required_settings (env : gmap string string)
    (self : DatabaseTelegramBot) :
  __init__ env = Returns self ->
  (forall var, In var required_vars -> exists s, env !! var = Some s /\ s <> "") /\
  db_server self = env !! "DB_SERVER" /\
  db_database self = env !! "DB_DATABASE" /\
  db_username self = env !! "DB_USERNAME" /\
  db_password self = env !! "DB_PASSWORD" /\
  telegram_token self = env !! "TELEGRAM_BOT_TOKEN" /\
  telegram_chat_id self = env !! "TELEGRAM_CHAT_ID" /\
  Py.int (getenv_or env "POLL_INTERVAL" "30") = Returns (poll_interval self).
Proof.
  unfold __init__.
  destruct (Py.int (getenv_or env "POLL_INTERVAL" "30")) as [n|e]; [|discriminate].
  unfold _validate_config. destruct (missing_vars env) eqn:E; [|discriminate].
  intros [= <-]. simpl. split; [|repeat split].
  intros var Hin.
  pose proof (proj1 (missing_vars_nil env) E var Hin) as Hpresent.
  unfold is_missing in Hpresent.
  destruct (env !! var) as [s|]; [|tauto].
  exists s. split; [reflexivity|]. intros ->. tauto.
Qed.

Lemma init_stores_required_settings_witness :
  (forall var, In var required_vars -> exists s, full_env !! var = Some s /\ s <> "") /\
  db_server example_bot = Some "sql.example" /\
  telegram_chat_id example_bot = Some "42".
Proof.
  assert (Hinit : __init__ full_env = Returns example_bot) by (vm_compute; reflexivity).
  destruct (init_stores_required_settings full_env example_bot Hinit)
    as (Hall & Hserver & _ & _ & _ & _ & Hchat & _).
  split; [exact Hall|]. split; reflexivity.
Defined.

(** X2: the optional settings: an unset DB_VIEW, DB_TABLE or POLL_INTERVAL takes
    its default; a set one is taken as it is, the empty text included (only
    the required settings treat empty as missing). *)
Theorem init_optional_settings (env : gmap string string)
    (self : DatabaseTelegramBot) :
  __init__ env = Returns self ->
  (env !! "DB_VIEW" = None -> db_view self = "your_view_name") /\
  (forall s, env !! "DB_VIEW" = Some s -> db_view self = s) /\
  (env !! "DB_TABLE" = None -> db_table self = "your_table_name") /\
  (forall s, env !! "DB_TABLE" = Some s -> db_table self = s) /\
  (env !! "POLL_INTERVAL" = None -> poll_interval self = 30).
Proof.
  unfold __init__, getenv_or.
  destruct (env !! "POLL_INTERVAL") as [t|] eqn:Hpoll; simpl.
  - destruct (Py.int t) as [n|e]; [|discriminate].
    destruct (_validate_config env); [|discriminate].
    intros [= <-]. simpl.
    repeat split; try discriminate; intros; subst;
      match goal with Hv : _ !! _ = _ |- _ => rewrite Hv; reflexivity end.
  - change (Py.int "30") with (Returns (A := Z) 30).
    destruct (_validate_config env); [|discriminate].
    intros [= <-]. simpl.
    repeat split; intros; subst; try reflexivity;
      match goal with Hv : _ !! _ = _ |- _ => rewrite Hv; reflexivity end.
Qed.

Lemma filter_sublist {A : Type} (f : A -> bool) (l : list A) :
  sublist (List.filter f l) l.
Proof.
  induction l as [|x l IH]; simpl; [constructor|].
  destruct (f x); constructor; exact IH.
Qed.

(** X3: the settings reported missing come in the order of the list of required
    settings, each once; and settings outside that list play no part in the
    validation. *)
Theorem missing_vars_ordered (env : gmap string string) :
  sublist (missing_vars env) required_vars /\
  NoDup (missing_vars env) /\
  (forall key v, ~ In key required_vars ->
     _validate_config (<[key := v]> env) = _validate_config env).
Proof.
  split; [apply filter_sublist|]. split.
  - eapply sublist_NoDup; [|apply filter_sublist].
    unfold required_vars. apply NoDup_ListNoDup.
    repeat (constructor; [simpl; intuition discriminate|]). constructor.
  - intros key v Hkey. unfold _validate_config.
    replace (missing_vars (<[key := v]> env)) with (missing_vars env); [reflexivity|].
    unfold missing_vars, required_vars in *. simpl in Hkey. simpl.
    rewrite !lookup_insert_ne by (intros ->; tauto). reflexivity.
Qed.

(** ** The methods, further *)

Section Further.

Context {V : Type} `{PyObject V}.

Implicit Types (w : World V) (self : DatabaseTelegramBot).

Ltac run_monad :=
  unfold try_except, lift, raise, log, sleep, emit, Exception;
  unfold mbind, M_bind, mret, M_ret; simpl.

Ltac run_db :=
  unfold get_db_connection, pyodbc_connect, open_conn, conn_cursor,
    cursor_execute_select, select_rows, cursor_fetchall,
    cursor_execute_delete, delete_rows, conn_commit, commit_image,
    cursor_close, conn_close, drop_conn, driver_call;
  run_monad.

Ltac next_fault :=
  match goal with
  | |- context [db_fault ?w ?n] =>
      let F := fresh "F" in
      destruct (db_fault w n) eqn:F; simpl
  end.

Ltac enter :=
  unfold fetch_pending_messages, delete_processed_records;
  rewrite ?call_fst, ?call_table, ?call_posts, ?call_http, ?call_db_fault,
    ?call_db_calls, ?call_trace.

(** X4: [get_db_connection]: a refused connection is logged and raised again as
    it came, and no connection is registered; an accepted one is registered
    under the next free number and logged. *)
Theorem get_db_connection_result self w :
  let r := get_db_connection self w in
  match db_fault w (db_calls w) with
  | Some e =>
      fst r = Raises e /\ conns (snd r) = conns w /\
      next_conn (snd r) = next_conn w /\
      last (trace (snd r)) =
        Some (EvLog ERROR ("Failed to connect to database: " +:+ exn_text e))
  | None =>
      fst r = Returns (next_conn w) /\
      conns (snd r) = <[next_conn w := None]> (conns w) /\
      next_conn (snd r) = S (next_conn w) /\
      last (trace (snd r)) =
        Some (EvLog INFO "Database connection established successfully")
  end /\
  db_calls (snd r) = S (db_calls w) /\ table (snd r) = table w.
Proof.
  cbv zeta. run_db.
  destruct (db_fault w (db_calls w)) as [e|]; simpl;
    repeat split; apply last_snoc.
Qed.

(** What [fetch_pending_messages] leaves as it found: the table, the
    endpoint, the oracles.  It returns the committed rows or nothing. *)
Lemma fetch_frame self w :
  let r := fetch_pending_messages self w in
  (fst r = Returns (table w) \/ fst r = Returns []) /\
  table (snd r) = table w /\ posts (snd r) = posts w /\
  http (snd r) = http w /\ db_fault (snd r) = db_fault w /\
  (db_calls w < db_calls (snd r) <= db_calls w + 6)%nat /\
  posted_chat_ids (trace (snd r)) = posted_chat_ids (trace w).
Proof.
  cbv zeta. enter. run_db.
  repeat next_fault;
    (split; [first [right; reflexivity
                   | left; unfold visible; simpl; rewrite lookup_insert_eq; reflexivity]|]);
    repeat split; try lia;
    rewrite !posted_chat_ids_app; simpl; rewrite !app_nil_r; reflexivity.
Qed.

(** X5: [fetch_pending_messages] only reads: in every world, whatever fails, the
    committed rows are as before, no POST is made, and between one and six
    calls reach the driver. *)
Theorem fetch_read_only self w :
  table (snd (fetch_pending_messages self w)) = table w /\
  posts (snd (fetch_pending_messages self w)) = posts w /\
  posted_chat_ids (trace (snd (fetch_pending_messages self w))) =
    posted_chat_ids (trace w) /\
  (db_calls w < db_calls (snd (fetch_pending_messages self w)) <= db_calls w + 6)%nat /\
  (fst (fetch_pending_messages self w) = Returns (table w) \/
   fst (fetch_pending_messages self w) = Returns []).
Proof.
  destruct (fetch_frame self w) as (Hret & Ht & Hp & _ & _ & Hcalls & Hposted).
  auto.
Qed.

(** X7: a POST that raises something else than a [RequestException] is not
    handled by [send_telegram_message]: the exception reaches the caller,
    and the call logs nothing. *)
Theorem send_propagates_other_exceptions self (text : string) (chat : V) w e :
  http w (posts w) = PostRaises e ->
  is_RequestException e = false ->
  fst (send_telegram_message self text chat w) = Raises e /\
  trace (snd (send_telegram_message self text chat w)) =
    (trace w ++
     [EvPost ("https://api.telegram.org/bot" +:+ str_opt (telegram_token self)
              +:+ "/sendMessage")
        (if py_bool chat then chat else py_of_opt (telegram_chat_id self))
        text "HTML" 30])%list.
Proof.
  intros Hhttp Hcls.
  destruct (send_cases self text chat w) as (logged & Hsend & _ & Hlogged).
  assert (Hnil : logged = []) by (apply Hlogged; eauto).
  rewrite Hsend, Hhttp, Hcls, Hnil. simpl. rewrite app_nil_r. auto.
Qed.

(** What [delete_processed_records] leaves as it found, and the two states
    the table can be in afterwards. *)
Lemma delete_frame self (ids : list V) w :
  let r := delete_processed_records self ids w in
  fst r = Returns tt /\
  (table (snd r) = table w \/
   table (snd r) = List.filter (fun row => negb (id_in ids row)) (table w)) /\
  posts (snd r) = posts w /\ http (snd r) = http w /\
  db_fault (snd r) = db_fault w /\
  (db_calls w <= db_calls (snd r) <= db_calls w + 6)%nat /\
  posted_chat_ids (trace (snd r)) = posted_chat_ids (trace w).
Proof.
  cbv zeta. destruct ids as [|i ids].
  { enter. simpl. repeat split; auto; lia. }
  enter. run_db.
  repeat next_fault;
    (split; [reflexivity|]);
    (split; [first [left; reflexivity
                   | right; unfold visible; simpl; rewrite !lookup_insert_eq; reflexivity]|]);
    repeat split; try lia;
    rewrite !posted_chat_ids_app; simpl; rewrite !app_nil_r; reflexivity.
Qed.


Lemma placeholders_count {A : Type} (ids : list A) :
  count_char "?" (join "," (map (fun _ => "?") ids)) = length ids.
Proof.
  induction ids as [|i [|j ids] IH]; try reflexivity.
  change (count_char "?" (String "?" (String "," (join "," (map (fun _ => "?") (j :: ids)))))
          = S (length (j :: ids))).
  set (tail := join "," (map (fun _ => "?") (j :: ids))) in *.
  simpl. rewrite IH. reflexivity.
Qed.

Lemma placeholders_length {A : Type} (ids : list A) :
  ids <> [] ->
  String.length (join "," (map (fun _ => "?") ids)) = (2 * length ids - 1)%nat.
Proof.
  intros Hne. induction ids as [|i [|j ids] IH]; [congruence|reflexivity|].
  change (String.length (String "?" (String "," (join "," (map (fun _ => "?") (j :: ids)))))
          = (2 * length (i :: j :: ids) - 1)%nat).
  set (tail := join "," (map (fun _ => "?") (j :: ids))) in *.
  simpl String.length. rewrite IH by discriminate. simpl. lia.
Qed.

Lemma placeholders_commas {A : Type} (ids : list A) :
  count_char "," (join "," (map (fun _ => "?") ids)) = (length ids - 1)%nat.
Proof.
  induction ids as [|i [|j ids] IH]; try reflexivity.
  change (count_char "," (String "?" (String "," (join "," (map (fun _ => "?") (j :: ids)))))
          = (length (i :: j :: ids) - 1)%nat).
  set (tail := join "," (map (fun _ => "?") (j :: ids))) in *.
  simpl. rewrite IH. simpl. lia.
Qed.

Lemma placeholders_repeat {A : Type} (ids : list A) :
  map (fun _ => "?") ids = repeat "?" (length ids).
Proof. induction ids as [|i ids IH]; simpl; [|rewrite IH]; reflexivity. Qed.

(** X9: the DELETE statement: once the connection and the cursor are there, the
    statement sent is "DELETE FROM <table> WHERE id IN (" followed by as many
    question marks as there are identifiers, joined by commas, and ")"; the
    identifiers are bound to it as given, in their order.  The text between
    the brackets has one question mark per identifier and one comma
    less. *)
Theorem delete_binds_one_placeholder_per_id self (ids : list V) w :
  ids <> [] ->
  db_fault w (db_calls w) = None ->
  db_fault w (S (db_calls w)) = None ->
  In (EvExecute (next_conn w)
        ("DELETE FROM " +:+ db_table self +:+ " WHERE id IN ("
         +:+ join "," (repeat "?" (length ids)) +:+ ")")
        ids)
     (trace (snd (delete_processed_records self ids w))) /\
  count_char "?" (join "," (repeat "?" (length ids))) = length ids /\
  count_char "," (join "," (repeat "?" (length ids))) = (length ids - 1)%nat /\
  String.length (join "," (repeat "?" (length ids))) = (2 * length ids - 1)%nat.
Proof.
  intros Hne F0 F1.
  rewrite <- (placeholders_repeat ids).
  split; [|split; [apply placeholders_count|split;
                   [apply placeholders_commas|apply placeholders_length, Hne]]].
  destruct ids as [|i ids]; [congruence|].
  enter. run_db.
  rewrite F0; simpl. rewrite F1; simpl.
  repeat next_fault; rewrite !in_app_iff; simpl; tauto.
Qed.



(** X11: [format_message] never raises, and what follows the fourth field of a
    record has no part in the text. *)
Theorem format_message_total_ignores_rest (record : list V) :
  (exists text, format_message record = Returns text) /\
  (forall a b c d rest,
     record = a :: b :: c :: d :: rest ->
     format_message record = format_message [a; b; c; d]).
Proof.
  split; [apply format_message_returns|].
  intros a b c d rest ->. reflexivity.
Qed.

(** One turn of the loop, on any record: one POST, and the store as before. *)
Lemma process_record_frame self (record ids : list V) w :
  same_store w (snd (process_record self record ids w)) /\
  posts (snd (process_record self record ids w)) = S (posts w) /\
  length (posted_chat_ids (trace (snd (process_record self record ids w)))) =
    S (length (posted_chat_ids (trace w))).
Proof.
  unfold process_record.
  destruct (format_message_returns record) as (text & ->).
  destruct (send_cases self text py_None w) as (logged & Hsend & Hlogged & _).
  run_monad. rewrite Hsend.
  destruct record as [|i fields];
    (destruct (http w (posts w)) as [st rs|e]; simpl;
     [destruct (is_error_status st)|destruct (is_RequestException e)]; simpl;
     (split; [repeat split|]); (split; [reflexivity|]);
     rewrite !posted_chat_ids_app, ?Hlogged; simpl;
     rewrite ?app_nil_r, length_app; simpl; lia).
Qed.

(** X12: the pause: after a POST that was answered, or that failed the way
    requests reports failures, the turn ends with the pause of one second;
    if the POST was not acknowledged the warning names the record. *)
Theorem process_record_pause self (i : V) (fields ids : list V) w :
  (forall e, http w (posts w) = PostRaises e -> is_RequestException e = true) ->
  last (trace (snd (process_record self (i :: fields) ids w))) = Some (EvSleep 1) /\
  (acknowledged (http w (posts w)) = false ->
   In (EvLog WARNING ("Failed to send message for record ID: " +:+ py_str i))
      (trace (snd (process_record self (i :: fields) ids w)))).
Proof.
  intros Hexpected. unfold process_record.
  destruct (format_message_returns (i :: fields)) as (text & ->).
  destruct (send_cases self text py_None w) as (logged & Hsend & _).
  run_monad. rewrite Hsend. unfold acknowledged.
  destruct (http w (posts w)) as [st rs|e]; simpl.
  - destruct (is_error_status st); simpl; (split; [apply last_snoc|]).
    + intros _. rewrite !in_app_iff. simpl. tauto.
    + discriminate.
  - rewrite (Hexpected e eq_refl). simpl. split; [apply last_snoc|].
    intros _. rewrite !in_app_iff. simpl. tauto.
Qed.

(** The loop on any list of records: it ends normally with the identifiers
    of the acknowledged records appended, having made one POST per record,
    or it is left by an exception, having made at most that many. *)
Lemma for_records_cases self (records : list (list V)) :
  forall (ids : list V) w,
  let r := for_records self records ids w in
  same_store w (snd r) /\
  (posts w <= posts (snd r) <= posts w + length records)%nat /\
  ((fst r = Returns (ids ++ succeeded_ids (http w) (posts w) records)%list /\
    posts (snd r) = (posts w + length records)%nat) \/
   exists e, fst r = Raises e).
Proof.
  induction records as [|record rest IH]; intros ids w; cbv zeta.
  - simpl. rewrite app_nil_r. split; [apply same_store_refl|].
    split; [lia|]. left. split; [reflexivity|lia].
  - destruct (process_record_frame self record ids w) as (Hsame & Hposts & _).
    simpl. unfold mbind, M_bind.
    destruct (process_record self record ids w) as [[ids1|e] w1] eqn:Hstep;
      simpl in Hsame, Hposts.
    + specialize (IH ids1 w1). cbv zeta in IH.
      destruct IH as (Hsame2 & Hbound & Hres).
      split; [eapply same_store_trans; eassumption|].
      split; [simpl; lia|].
      destruct Hres as [(Hret & Hp2)|(e & He)]; [left|right; eauto].
      split; [|simpl; lia].
      rewrite Hret. destruct Hsame as (_&_&_&_&_&Hhttp). rewrite Hhttp, Hposts.
      destruct record as [|i fields].
      * destruct (process_record_no_fields self ids w) as (w' & Hraise & _).
        rewrite Hraise in Hstep. discriminate.
      * destruct (process_record_with_id self i fields ids w) as (w' & Heq & _).
        rewrite Heq in Hstep. injection Hstep as <- _.
        simpl. destruct (acknowledged (http w (posts w)));
          [rewrite <- app_assoc|]; reflexivity.
    + simpl. split; [exact Hsame|]. split; [lia|]. right. eauto.
Qed.

(** [process_messages], with the outer [try] resolved. *)
Lemma process_messages_unfold self w :
  process_messages self w =
    match fetch_pending_messages self w with
    | (Returns [], w1) => log DEBUG "No pending messages found" w1
    | (Returns records, w1) =>
        match for_records self records [] w1 with
        | (Returns [], w2) => (Returns tt, w2)
        | (Returns ids, w2) =>
            log INFO ("Processing cycle completed. Sent "
                      +:+ str_nat (length ids) +:+ " messages")
              (snd (delete_processed_records self ids w2))
        | (Raises e, w2) =>
            log ERROR ("Error in process_messages: " +:+ exn_text e) w2
        end
    | (Raises e, w1) => log ERROR ("Error in process_messages: " +:+ exn_text e) w1
    end.
Proof.
  unfold process_messages, try_except. unfold mbind at 1, M_bind at 1.
  destruct (fetch_pending_messages self w) as [[[|record rest]|e] w1];
    [reflexivity| |reflexivity].
  unfold mbind at 1, M_bind at 1.
  destruct (for_records self (record :: rest) [] w1) as [[[|i ids]|e] w2];
    [reflexivity| |reflexivity].
  unfold mbind, M_bind.
  pose proof (proj1 (delete_frame self (i :: ids) w2)) as Hdel. cbv zeta in Hdel.
  destruct (delete_processed_records self (i :: ids) w2) as [[[]|e] w3];
    [reflexivity|discriminate].
Qed.

(** What a whole cycle leaves as it found, and what it can do to the rest. *)
Lemma process_messages_frame self w :
  let r := process_messages self w in
  fst r = Returns tt /\
  http (snd r) = http w /\ db_fault (snd r) = db_fault w /\
  (posts w <= posts (snd r) <= posts w + length (table w))%nat /\
  (db_calls w < db_calls (snd r) <= db_calls w + 12)%nat /\
  (table (snd r) = table w \/
   table (snd r) =
     List.filter (fun row => negb (id_in (succeeded_ids (http w) (posts w) (table w)) row))
       (table w)).
Proof.
  cbv zeta. rewrite process_messages_unfold.
  destruct (fetch_frame self w) as (Hret & Ht & Hp & Hh & Hf & Hc & _).
  destruct (fetch_pending_messages self w) as [o1 w1]. simpl in *.
  assert (Hrecords : exists records, o1 = Returns records /\
                       (records = table w \/ records = [])).
  { destruct Hret as [-> | ->]; eauto. }
  destruct Hrecords as (records & -> & Hrecords).
  destruct records as [|record rest].
  { simpl. split; [reflexivity|]. split; [exact Hh|]. split; [exact Hf|].
    split; [lia|]. split; [lia|]. left. exact Ht. }
  destruct Hrecords as [Hrecords|]; [|discriminate].
  pose proof (for_records_cases self (record :: rest) [] w1) as Hloop.
  cbv zeta in Hloop. destruct Hloop as (Hsame & Hposts & Hres).
  destruct Hsame as (Ht2 & _ & _ & Hf2 & Hc2 & Hh2).
  rewrite Hrecords in *.
  destruct (for_records self (table w) [] w1) as [o2 w2]. simpl in *.
  unfold row in *.
  destruct Hres as [(-> & Hp2)|(e & ->)].
  - rewrite Hh, Hp.
    destruct (succeeded_ids (http w) (posts w) (table w)) as [|i ids] eqn:Hids.
    + simpl. split; [reflexivity|]. split; [congruence|]. split; [congruence|].
      split; [lia|]. split; [lia|]. left. congruence.
    + pose proof (delete_frame self (i :: ids) w2) as Hdel. cbv zeta in Hdel.
      destruct Hdel as (_ & Htab & Hp3 & Hh3 & Hf3 & Hc3 & _).
      unfold log, emit.
      cbn [fst snd http db_fault posts db_calls table set_trace]. split; [reflexivity|]. split; [congruence|]. split; [congruence|].
      split; [lia|]. split; [lia|].
      destruct Htab as [Htab|Htab]; [left|right]; rewrite Htab, Ht2, Ht; reflexivity.
  - simpl. split; [reflexivity|]. split; [congruence|]. split; [congruence|].
    split; [lia|]. split; [lia|]. left. congruence.
Qed.

(** X13: a cycle never raises: whatever the store and the endpoint do, and
    whatever the rows look like, [process_messages] returns; it makes at most
    one POST per committed row and at most twelve calls to the driver. *)
Theorem cycle_never_raises self w :
  fst (process_messages self w) = Returns tt /\
  (posts w <= posts (snd (process_messages self w)) <= posts w + length (table w))%nat /\
  (db_calls w < db_calls (snd (process_messages self w)) <= db_calls w + 12)%nat.
Proof.
  pose proof (process_messages_frame self w) as Hframe. cbv zeta in Hframe.
  destruct Hframe as (Hret & _ & _ & Hposts & Hcalls & _). auto.
Qed.

(** X14: delete after send: a committed row is still there after a cycle unless
    its first field is the identifier of a record whose POST was
    acknowledged in that cycle. *)
Theorem cycle_deletes_only_acknowledged self w (r : list V) :
  In r (table w) ->
  In r (table (snd (process_messages self w))) \/
  exists i, row_id r = Some i /\
            In i (succeeded_ids (http w) (posts w) (table w)).
Proof.
  intros Hin.
  pose proof (process_messages_frame self w) as Hframe. cbv zeta in Hframe.
  destruct Hframe as (_ & _ & _ & _ & _ & [Htab|Htab]); rewrite Htab.
  - left. exact Hin.
  - destruct (id_in (succeeded_ids (http w) (posts w) (table w)) r) eqn:Hid.
    + right. destruct r as [|i fields]; [discriminate|].
      exists i. split; [reflexivity|].
      simpl in Hid. apply bool_decide_eq_true in Hid.
      apply list_elem_of_In. exact Hid.
    + left. apply filter_In. split; [exact Hin|]. rewrite Hid. reflexivity.
Qed.

(** With no fault in its six calls, the world [fetch_pending_messages]
    leaves has counted six calls more. *)
Lemma fetch_ok_calls self w :
  (forall k, (k < 6)%nat -> db_fault w (k + db_calls w)%nat = None) ->
  db_calls (snd (fetch_pending_messages self w)) = (6 + db_calls w)%nat.
Proof.
  intros Hok.
  pose proof (Hok 0%nat ltac:(lia)) as F0. pose proof (Hok 1%nat ltac:(lia)) as F1.
  pose proof (Hok 2%nat ltac:(lia)) as F2. pose proof (Hok 3%nat ltac:(lia)) as F3.
  pose proof (Hok 4%nat ltac:(lia)) as F4. pose proof (Hok 5%nat ltac:(lia)) as F5.
  simpl in F0, F1, F2, F3, F4, F5.
  enter. run_db.
  rewrite F0; simpl. rewrite F1; simpl. rewrite F2; simpl. rewrite F3; simpl.
  rewrite F4; simpl. rewrite F5; simpl. reflexivity.
Qed.

(** A failure of the connection, the cursor, the DELETE or the commit keeps
    the committed rows. *)
Lemma delete_fault_keeps_table self (ids : list V) w k :
  (k < 4)%nat -> db_fault w (k + db_calls w)%nat <> None ->
  table (snd (delete_processed_records self ids w)) = table w.
Proof.
  intros Hk Hfault. destruct ids as [|i ids]; [enter; reflexivity|].
  enter. run_db.
  repeat next_fault; try reflexivity;
    do 4 (destruct k as [|k]; [simpl in Hfault; congruence|]); lia.
Qed.

(** What a cycle is when the fetch meets no fault and every row has an
    identifier. *)
Lemma cycle_after_fetch self w :
  (forall k, (k < 6)%nat -> db_fault w (k + db_calls w)%nat = None) ->
  Forall (fun record => record <> []) (table w) ->
  exists w2,
    db_calls w2 = (6 + db_calls w)%nat /\ db_fault w2 = db_fault w /\
    table w2 = table w /\ http w2 = http w /\
    posts w2 = (posts w + length (table w))%nat /\
    process_messages self w =
      match table w, succeeded_ids (http w) (posts w) (table w) with
      | [], _ => log DEBUG "No pending messages found" w2
      | _, [] => (Returns tt, w2)
      | _, ids =>
          log INFO ("Processing cycle completed. Sent "
                    +:+ str_nat (length ids) +:+ " messages")
            (snd (delete_processed_records self ids w2))
      end.
Proof.
  intros Hok Hrows. rewrite process_messages_unfold.
  destruct (fetch_ok self w Hok) as (Hret & _ & _ & _).
  pose proof (fetch_ok_calls self w Hok) as Hcalls.
  destruct (fetch_frame self w) as (_ & Ht & Hp & Hh & Hf & _ & _).
  destruct (fetch_pending_messages self w) as [o1 w1].
  cbn [fst snd] in *. subst o1.
  destruct (for_records_with_ids self (table w) Hrows [] w1)
    as (w2 & Hloop & Hposts & Hsame).
  rewrite app_nil_l, Hh, Hp in Hloop.
  destruct Hsame as (Ht2 & _ & _ & Hf2 & Hc2 & Hh2).
  exists w2.
  split; [congruence|]. split; [congruence|]. split; [congruence|].
  split; [congruence|]. split; [unfold row in *; lia|].
  set (ids := succeeded_ids (http w) (posts w) (table w)) in *. clearbody ids.
  destruct (table w) as [|record rest].
  - cbn [for_records] in Hloop. injection Hloop as <- <-. reflexivity.
  - rewrite Hloop. destruct ids; reflexivity.
Qed.

Lemma id_in_cons (i : V) (ids r : list V) :
  id_in ids r = true -> id_in (i :: ids) r = true.
Proof.
  destruct r as [|j fields]; [discriminate|]. simpl.
  rewrite !bool_decide_eq_true. intros Hj. right. exact Hj.
Qed.

Lemma succeeded_ids_all (answers : nat -> post_outcome) (records : list (list V)) :
  forall p,
  Forall (fun record => record <> []) records ->
  (forall j, (j < length records)%nat -> acknowledged (answers (p + j)%nat) = true) ->
  forall r, In r records -> id_in (succeeded_ids answers p records) r = true.
Proof.
  induction records as [|record rest IH]; intros p Hrows Hack r Hin; [destruct Hin|].
  inversion Hrows as [|? ? Hrecord Hrest]; subst.
  destruct record as [|i fields]; [congruence|].
  simpl. pose proof (Hack 0%nat ltac:(simpl; lia)) as H0.
  rewrite Nat.add_0_r in H0. rewrite H0.
  destruct Hin as [<- | Hin].
  - simpl. apply bool_decide_eq_true. left.
  - apply id_in_cons. apply IH; [exact Hrest| |exact Hin].
    intros j Hj. replace (S p + j)%nat with (p + S j)%nat by lia.
    apply Hack. simpl. lia.
Qed.

(** X15: the cycle when nothing fails: with no fault in the twelve calls to the
    driver, an identifier in every row and every POST acknowledged, the cycle
    makes one POST per row and leaves the committed table empty. *)
Theorem cycle_relays_and_removes_everything self w :
  (forall k, (k < 12)%nat -> db_fault w (k + db_calls w)%nat = None) ->
  Forall (fun record => record <> []) (table w) ->
  (forall j, (j < length (table w))%nat ->
     acknowledged (http w (posts w + j)%nat) = true) ->
  fst (process_messages self w) = Returns tt /\
  table (snd (process_messages self w)) = [] /\
  posts (snd (process_messages self w)) = (posts w + length (table w))%nat.
Proof.
  intros Hok Hrows Hack.
  split; [apply (process_messages_frame self w)|].
  destruct (cycle_after_fetch self w) as (w2 & Hc & Hf & Ht & Hh & Hp & Hcycle);
    [intros k Hk; apply Hok; lia|exact Hrows|].
  rewrite Hcycle.
  pose proof (succeeded_ids_all (http w) (table w) (posts w) Hrows Hack) as Hall.
  destruct (table w) as [|record rest] eqn:Htable.
  { simpl. split; [exact Ht|]. simpl in Hp. exact Hp. }
  destruct (succeeded_ids (http w) (posts w) (record :: rest)) as [|i ids] eqn:Hids.
  { specialize (Hall record ltac:(left; reflexivity)).
    destruct record; [inversion Hrows; congruence|discriminate]. }
  unfold log, emit. cbn [fst snd posts table set_trace].
  split.
  - rewrite (delete_ok self (i :: ids) w2); [|discriminate|].
    + rewrite Ht. 
      destruct (List.filter (fun r => negb (id_in (i :: ids) r)) (record :: rest))
        as [|r l] eqn:Hfilter; [reflexivity|].
      assert (Hr : In r (List.filter (fun r => negb (id_in (i :: ids) r)) (record :: rest)))
        by (rewrite Hfilter; left; reflexivity).
      apply filter_In in Hr as [Hr Hneg]. rewrite (Hall r Hr) in Hneg. discriminate.
    + intros k Hk. rewrite Hf, Hc.
      replace (k + (6 + db_calls w))%nat with ((k + 6) + db_calls w)%nat by lia.
      apply Hok. lia.
  - pose proof (delete_frame self (i :: ids) w2) as Hdel. cbv zeta in Hdel.
    destruct Hdel as (_ & _ & Hp3 & _). rewrite Hp3. exact Hp.
Qed.

(** X16: at least once: when the rows were fetched and sent but the delete step
    failed (connection, cursor, DELETE or commit), the committed rows are as
    before the cycle, and a following cycle whose fetch meets no fault posts
    every one of them again. *)
Theorem undeleted_rows_are_sent_again self w k :
  (forall j, (j < 6)%nat -> db_fault w (j + db_calls w)%nat = None) ->
  Forall (fun record => record <> []) (table w) ->
  (6 <= k < 10)%nat -> db_fault w (k + db_calls w)%nat <> None ->
  let w' := snd (process_messages self w) in
  (forall j, (j < 6)%nat -> db_fault w' (j + db_calls w')%nat = None) ->
  table w' = table w /\
  posts w' = (posts w + length (table w))%nat /\
  posts (snd (process_messages self w')) = (posts w' + length (table w))%nat.
Proof.
  intros Hok Hrows Hk Hfault w' Hok'.
  assert (Hfirst : table w' = table w /\ posts w' = (posts w + length (table w))%nat).
  { unfold w'.
    destruct (cycle_after_fetch self w Hok Hrows)
      as (w2 & Hc & Hf & Ht & Hh & Hp & Hcycle).
    rewrite Hcycle.
    destruct (table w) as [|record rest] eqn:Htable; [simpl in *; auto|].
    destruct (succeeded_ids (http w) (posts w) (record :: rest)) as [|i ids];
      [simpl; auto|].
    unfold log, emit. cbn [fst snd posts table set_trace]. split.
    - rewrite (delete_fault_keeps_table self (i :: ids) w2 (k - 6)); [exact Ht|lia|].
      rewrite Hf, Hc.
      replace (k - 6 + (6 + db_calls w))%nat with (k + db_calls w)%nat by lia.
      exact Hfault.
    - pose proof (delete_frame self (i :: ids) w2) as Hdel. cbv zeta in Hdel.
      destruct Hdel as (_ & _ & Hp3 & _). rewrite Hp3. exact Hp. }
  destruct Hfirst as (Htable' & Hposts').
  split; [exact Htable'|]. split; [exact Hposts'|].
  assert (Hrows' : Forall (fun record => record <> []) (table w'))
    by (rewrite Htable'; exact Hrows).
  destruct (cycle_after_fetch self w' Hok' Hrows')
    as (w2 & _ & _ & _ & _ & Hp & Hcycle).
  rewrite Hcycle, <- Htable'.
  destruct (table w') as [|record rest]; [simpl in *; exact Hp|].
  destruct (succeeded_ids (http w') (posts w') (record :: rest)) as [|i ids];
    [simpl; exact Hp|].
  unfold log, emit. cbn [fst snd posts table set_trace].
  pose proof (delete_frame self (i :: ids) w2) as Hdel. cbv zeta in Hdel.
  destruct Hdel as (_ & _ & Hp3 & _). rewrite Hp3. exact Hp.
Qed.

(** ** The scheduler loop *)

Section Kernel.

Variable kernel : list (event V) -> Z -> option exn.

(** One turn with a poll interval [time.sleep] takes and the kernel does not
    refuse: the cycle, then the pause; the handlers of [run] are not
    entered. *)
Lemma run_iteration_ok self w :
  (0 <= poll_interval self <= max_sleep)%Z ->
  (forall t, kernel t (poll_interval self) = None) ->
  run_iteration kernel self w =
    (Returns false,
     set_trace (trace (snd (process_messages self w))
                ++ [EvSleep (poll_interval self)])%list
       (snd (process_messages self w))).
Proof.
  intros Hpoll Hkernel. unfold run_iteration, try_except2, time_sleep, refused_length.
  unfold mbind, M_bind, mret, M_ret.
  pose proof (proj1 (process_messages_frame self w)) as Hret.
  destruct (process_messages self w) as [[[]|e] w1]; [|discriminate].
  replace (poll_interval self <? - max_sleep)%Z with false
    by (symmetry; apply Z.ltb_ge; unfold max_sleep in *; lia).
  replace (max_sleep <? poll_interval self)%Z with false
    by (symmetry; apply Z.ltb_ge; lia).
  replace (poll_interval self <? 0)%Z with false by (symmetry; apply Z.ltb_ge; lia).
  simpl. rewrite Hkernel. reflexivity.
Qed.

(** One turn with a poll interval [time.sleep] refuses: it raises after the
    cycle, the handler of [run] logs that and calls [time.sleep] again,
    which raises out of the handler. *)
Lemma run_iteration_refused self w e :
  refused_length (poll_interval self) = Some e ->
  run_iteration kernel self w =
    (Raises e,
     set_trace (trace (snd (process_messages self w))
                ++ [EvLog ERROR ("Unexpected error in main loop: " +:+ exn_text e)])%list
       (snd (process_messages self w))).
Proof.
  intros Hrefused. unfold run_iteration, try_except2, time_sleep.
  unfold mbind, M_bind, mret, M_ret.
  pose proof (proj1 (process_messages_frame self w)) as Hret.
  destruct (process_messages self w) as [[[]|e'] w1]; [|discriminate].
  rewrite Hrefused. reflexivity.
Qed.

Lemma while_true_ok self (fuel : nat) :
  (0 <= poll_interval self <= max_sleep)%Z ->
  (forall t, kernel t (poll_interval self) = None) ->
  forall w,
    fst (while_true kernel fuel self w) = Returns false /\
    (db_calls w + fuel <= db_calls (snd (while_true kernel fuel self w)))%nat /\
    http (snd (while_true kernel fuel self w)) = http w /\
    db_fault (snd (while_true kernel fuel self w)) = db_fault w.
Proof.
  intros Hpoll Hkernel. induction fuel as [|fuel IH]; intros w.
  - simpl. repeat split. lia.
  - simpl. unfold mbind, M_bind. rewrite (run_iteration_ok self w Hpoll Hkernel).
    pose proof (process_messages_frame self w) as Hframe. cbv zeta in Hframe.
    destruct Hframe as (_ & Hh & Hf & _ & Hcalls & _).
    match goal with |- context [while_true kernel fuel self ?w1] =>
      destruct (IH w1) as (Hret & Hc & Hh1 & Hf1) end.
    simpl in Hc, Hh1, Hf1.
    split; [exact Hret|]. split; [lia|]. split; congruence.
Qed.

(** X17: [run] does not stop by itself: with a poll interval from 0 to
    9223372036 seconds that the kernel never refuses, however many turns it
    is given it is still in its loop after them, has raised nothing, and has
    polled the store in every turn. *)
Theorem run_keeps_polling self (fuel : nat) w :
  (0 <= poll_interval self <= max_sleep)%Z ->
  (forall t, kernel t (poll_interval self) = None) ->
  fst (run kernel self fuel w) = Returns false /\
  (db_calls w + fuel <= db_calls (snd (run kernel self fuel w)))%nat.
Proof.
  intros Hpoll Hkernel. unfold run. unfold mbind, M_bind, log, emit.
  match goal with |- context [while_true kernel fuel self ?w1] =>
    destruct (while_true_ok self fuel Hpoll Hkernel w1) as (Hret & Hc & _) end.
  simpl in Hc.
  destruct (while_true kernel fuel self _) as [[[|]|e] w2]; simpl in *;
    try discriminate. auto.
Qed.

(** X18: a poll interval that [time.sleep] refuses, which [__init__] accepts
    all the same, ends [run] in its first turn: after one cycle the error of
    [time.sleep] is logged by the handler of the loop and raised again by
    the handler's own pause.  The error is a [ValueError] for a negative
    interval down to -9223372036, and an [OverflowError] beyond 9223372036
    either way. *)
Theorem run_refused_interval_raises self (fuel : nat) w :
  (poll_interval self < 0 \/ max_sleep < poll_interval self)%Z ->
  exists e,
    fst (run kernel self (S fuel) w) = Raises e /\
    last (trace (snd (run kernel self (S fuel) w))) =
      Some (EvLog ERROR ("Unexpected error in main loop: " +:+ exn_text e)) /\
    (db_calls (snd (run kernel self (S fuel) w)) <= db_calls w + 12)%nat /\
    ((- max_sleep <= poll_interval self < 0)%Z ->
       e = Exn ValueError "sleep length must be non-negative") /\
    ((poll_interval self < - max_sleep \/ max_sleep < poll_interval self)%Z ->
       e = Exn OverflowError "timestamp too large to convert to C _PyTime_t").
Proof.
  intros Hpoll.
  assert (Hrefused : exists e, refused_length (poll_interval self) = Some e /\
            ((- max_sleep <= poll_interval self < 0)%Z ->
               e = Exn ValueError "sleep length must be non-negative") /\
            ((poll_interval self < - max_sleep \/ max_sleep < poll_interval self)%Z ->
               e = Exn OverflowError "timestamp too large to convert to C _PyTime_t")).
  { unfold refused_length.
    destruct (poll_interval self <? - max_sleep)%Z eqn:E1;
      destruct (max_sleep <? poll_interval self)%Z eqn:E2;
      destruct (poll_interval self <? 0)%Z eqn:E3; simpl;
      try apply Z.ltb_lt in E1; try apply Z.ltb_ge in E1;
      try apply Z.ltb_lt in E2; try apply Z.ltb_ge in E2;
      try apply Z.ltb_lt in E3; try apply Z.ltb_ge in E3;
      unfold max_sleep in *;
      first [ eexists; split; [reflexivity|]; split; [intros; try reflexivity; lia|
                                                    intros; try reflexivity; lia]
            | lia ]. }
  destruct Hrefused as (e & Hrefused & Hvalue & Hoverflow). exists e.
  unfold run. unfold mbind at 1 2 3, M_bind at 1 2 3, log, emit.
  cbn [while_true]. unfold mbind, M_bind.
  rewrite (run_iteration_refused self _ e Hrefused).
  cbn [fst snd trace db_calls set_trace].
  split; [reflexivity|]. split; [apply last_snoc|].
  split; [|split; assumption].
  match goal with |- context [process_messages self ?w1] =>
    pose proof (process_messages_frame self w1) as Hframe end.
  cbv zeta in Hframe. destruct Hframe as (_ & _ & _ & _ & Hcalls & _).
  simpl in Hcalls. lia.
Qed.

(** X19: the script does not start without its settings: if a required setting
    is missing, [main] raises before anything is logged, connected or
    sent. *)
Theorem main_refuses_to_start (env : gmap string string) (fuel : nat) w :
  (exists var, In var required_vars /\ is_missing env var) ->
  exists e, main kernel env fuel w = (Raises e, w).
Proof.
  intros (var & Hin & Hmissing).
  assert (Hinit : exists e, __init__ env = Raises e).
  { unfold __init__.
    destruct (Py.int (getenv_or env "POLL_INTERVAL" "30")) as [n|e]; [|eauto].
    unfold _validate_config. destruct (missing_vars env) eqn:E; [|eauto].
    destruct (proj1 (missing_vars_nil env) E var Hin Hmissing). }
  destruct Hinit as (e & Hinit). exists e.
  unfold main, lift. unfold mbind, M_bind. rewrite Hinit. reflexivity.
Qed.

End Kernel.

End Further.

(** ** The further properties on concrete worlds *)

Lemma init_optional_settings_witness :
  let self :=
    {| db_server := Some "sql.example"; db_database := Some "relay";
       db_username := Some "bot"; db_password := Some "secret";
       db_view := ""; db_table := "your_table_name";
       telegram_token := Some "123:abc"; telegram_chat_id := Some "42";
       poll_interval := 30 |} in
  __init__ (<["DB_VIEW" := ""]> full_env) = Returns self /\
  db_view self = "" /\ db_table self = "your_table_name" /\ poll_interval self = 30.
Proof.
  intros self.
  assert (Hinit : __init__ (<["DB_VIEW" := ""]> full_env) = Returns self)
    by (vm_compute; reflexivity).
  destruct (init_optional_settings (<["DB_VIEW" := ""]> full_env) self Hinit)
    as (_ & Hview & Htable & _ & Hpoll).
  split; [exact Hinit|].
  split; [apply Hview; vm_compute; reflexivity|].
  split; [apply Htable; vm_compute; reflexivity|].
  apply Hpoll. vm_compute. reflexivity.
Defined.

Lemma missing_vars_ordered_witness :
  _validate_config (<["HOME" := "/root"]> full_env) = _validate_config full_env.
Proof.
  apply (proj2 (proj2 (missing_vars_ordered full_env))).
  unfold required_vars. simpl. intuition discriminate.
Defined.

Lemma fetch_failure_skips_close_witness :
  let w := fresh_world two_rows query_fails always_ok in
  fst (fetch_pending_messages example_bot w) = Returns [] /\
  closed_conns (trace (snd (fetch_pending_messages example_bot w))) = [].
Proof.
  intros w.
  apply (fetch_failure_skips_close example_bot w 2).
  - reflexivity.
  - lia.
  - vm_compute. discriminate.
Defined.

Lemma send_propagates_other_exceptions_witness :
  let e := Exn TypeError "Object of type datetime is not JSON serializable" in
  let w := fresh_world two_rows no_fault (fun _ => PostRaises e) in
  fst (send_telegram_message example_bot "hello" (VTime "2024-01-01 10:00:00") w)
    = Raises e /\
  trace (snd (send_telegram_message example_bot "hello" (VTime "2024-01-01 10:00:00") w))
    = [EvPost "https://api.telegram.org/bot123:abc/sendMessage"
         (VTime "2024-01-01 10:00:00") "hello" "HTML" 30].
Proof.
  intros e w.
  assert (Hhttp : http w (posts w) = PostRaises e) by reflexivity.
  assert (Hcls : is_RequestException e = false) by reflexivity.
  exact (send_propagates_other_exceptions example_bot "hello"
           (VTime "2024-01-01 10:00:00") w e Hhttp Hcls).
Defined.


Lemma delete_binds_one_placeholder_per_id_witness :
  In (EvExecute 0 "DELETE FROM your_table_name WHERE id IN (?,?,?)"
        [VInt 1; VInt 2; VInt 5])
     (trace (snd (delete_processed_records example_bot [VInt 1; VInt 2; VInt 5]
                    (fresh_world two_rows no_fault always_ok)))).
Proof.
  apply (delete_binds_one_placeholder_per_id example_bot [VInt 1; VInt 2; VInt 5]
           (fresh_world two_rows no_fault always_ok)).
  - discriminate.
  - reflexivity.
  - reflexivity.
Defined.


Lemma format_message_total_ignores_rest_witness :
  format_message [VInt 7; VStr "hi"; VStr "ann"; VTime "10:00"; VStr "extra"; VNone] =
  format_message [VInt 7; VStr "hi"; VStr "ann"; VTime "10:00"].
Proof.
  apply (proj2 (format_message_total_ignores_rest
                  [VInt 7; VStr "hi"; VStr "ann"; VTime "10:00"; VStr "extra"; VNone])
           (VInt 7) (VStr "hi") (VStr "ann") (VTime "10:00") [VStr "extra"; VNone]).
  reflexivity.
Defined.

Lemma process_record_pause_witness :
  let w := fresh_world two_rows no_fault (fun _ => Responded 429 "Too Many Requests") in
  let r := process_record example_bot [VInt 1; VStr "hi"; VStr "a"; VTime "10:00"] [] w in
  last (trace (snd r)) = Some (EvSleep 1) /\
  In (EvLog WARNING "Failed to send message for record ID: 1") (trace (snd r)).
Proof.
  intros w r.
  destruct (process_record_pause example_bot (VInt 1)
              [VStr "hi"; VStr "a"; VTime "10:00"] [] w) as (Hlast & Hwarn).
  - intros e He. discriminate He.
  - split; [exact Hlast|]. apply Hwarn. reflexivity.
Defined.

Lemma cycle_deletes_only_acknowledged_witness :
  let w := fresh_world two_rows no_fault
             (fun n => if Nat.eqb n 0 then Responded 403 "Forbidden" else Responded 200 "OK") in
  let r := [VInt 1; VStr "hi"; VStr "a"; VTime "2024-01-01 10:00:00"] in
  In r (table (snd (process_messages example_bot w))).
Proof.
  intros w r.
  destruct (cycle_deletes_only_acknowledged example_bot w r) as [Hin|(i & Hi & Hack)].
  - left. reflexivity.
  - exact Hin.
  - exfalso. injection Hi as <-. vm_compute in Hack. intuition discriminate.
Defined.

Lemma cycle_relays_and_removes_everything_witness :
  let w := fresh_world two_rows no_fault always_ok in
  fst (process_messages example_bot w) = Returns tt /\
  table (snd (process_messages example_bot w)) = [] /\
  posts (snd (process_messages example_bot w)) = 2%nat.
Proof.
  intros w.
  apply (cycle_relays_and_removes_everything example_bot w).
  - intros k Hk. reflexivity.
  - repeat constructor; discriminate.
  - intros j Hj. reflexivity.
Defined.

Lemma undeleted_rows_are_sent_again_witness :
  let w := fresh_world two_rows
             (fault_at 9 (Exn DatabaseError "Communication link failure")) always_ok in
  let w' := snd (process_messages example_bot w) in
  table w' = two_rows /\
  posts w' = 2%nat /\
  posts (snd (process_messages example_bot w')) = 4%nat.
Proof.
  intros w w'. subst w'.
  assert (Hfetch : forall j, (j < 6)%nat -> db_fault w (j + db_calls w)%nat = None).
  { intros j Hj. do 6 (destruct j as [|j]; [reflexivity|]). lia. }
  assert (Hrows : Forall (fun record : list value => record <> []) (table w)).
  { repeat constructor; discriminate. }
  assert (Hfault : db_fault w (9 + db_calls w)%nat <> None).
  { vm_compute. discriminate. }
  assert (Hnext : forall j, (j < 6)%nat ->
            db_fault (snd (process_messages example_bot w))
              (j + db_calls (snd (process_messages example_bot w)))%nat = None).
  { intros j Hj. do 6 (destruct j as [|j]; [vm_compute; reflexivity|]). lia. }
  destruct (undeleted_rows_are_sent_again example_bot w 9 Hfetch Hrows
              ltac:(lia) Hfault Hnext) as (Htable & Hposts & Hagain).
  split; [rewrite Htable; reflexivity|].
  split; [rewrite Hposts; reflexivity|].
  rewrite Hagain, Hposts. reflexivity.
Defined.

Lemma run_keeps_polling_witness :
  let w := fresh_world two_rows no_fault always_ok in
  fst (run kernel_ok example_bot 3 w) = Returns false /\
  (3 <= db_calls (snd (run kernel_ok example_bot 3 w)))%nat.
Proof.
  intros w.
  apply (run_keeps_polling kernel_ok example_bot 3 w).
  - unfold max_sleep. simpl. lia.
  - intros t. reflexivity.
Defined.

Lemma run_refused_interval_raises_witness :
  __init__ (<["POLL_INTERVAL" := "-5"]> full_env) = Returns hasty_bot /\
  let w := fresh_world two_rows no_fault always_ok in
  fst (run kernel_ok hasty_bot 1 w) =
    Raises (Exn ValueError "sleep length must be non-negative") /\
  last (trace (snd (run kernel_ok hasty_bot 1 w))) =
    Some (EvLog ERROR "Unexpected error in main loop: sleep length must be non-negative").
Proof.
  split; [vm_compute; reflexivity|].
  intros w.
  destruct (run_refused_interval_raises kernel_ok hasty_bot 0 w)
    as (e & Hraise & Hlog & _ & Hvalue & _).
  - left. simpl. lia.
  - assert (He : e = Exn ValueError "sleep length must be non-negative").
    { apply Hvalue. unfold max_sleep. simpl. lia. }
    subst e. split; [exact Hraise|exact Hlog].
Defined.

Lemma main_refuses_to_start_witness :
  let w := fresh_world two_rows no_fault always_ok in
  exists e, main kernel_ok (delete "DB_SERVER" full_env) 5 w = (Raises e, w).
Proof.
  intros w.
  apply (main_refuses_to_start kernel_ok (delete "DB_SERVER" full_env) 5 w).
  exists "DB_SERVER". split; [simpl; tauto|]. left. vm_compute. reflexivity.
Defined.
